(** * Court scraper: a shallow embedding of [court_scraper.py]

    The development follows the class [CourtScraper]: Python text helpers,
    the two regular expressions, the BeautifulSoup tree and its queries,
    the Selenium session as an explicit state with a command log, and then
    the methods of the class in the order of the source file.

    A Python text is modelled by the [string] of its characters when
    these are ASCII, which [is_ascii] says. On such texts [upper], [lower],
    [strip], [isdigit] and the digit class of the regular expressions are
    Python's; on other texts Python follows the Unicode tables, which are
    not modelled. The theorems that say how a text is upper-cased, stripped
    or matched against digits take that text to be ASCII. *)

From Stdlib Require Import List String Ascii Bool ZArith Lia Arith.
Import ListNotations.
Open Scope string_scope.
Open Scope list_scope.
Open Scope nat_scope.

(** ** Python text *)

Module PyStr.

(** the texts the model speaks about: every character is below 128 *)
Definition is_ascii_char (c : ascii) : bool := nat_of_ascii c <? 128.

Fixpoint is_ascii (s : string) : bool :=
  match s with
  | EmptyString => true
  | String c s' => is_ascii_char c && is_ascii s'
  end.

Definition is_upper_char (c : ascii) : bool :=
  let n := nat_of_ascii c in (65 <=? n) && (n <=? 90).

Definition is_lower_char (c : ascii) : bool :=
  let n := nat_of_ascii c in (97 <=? n) && (n <=? 122).

Definition upper_char (c : ascii) : ascii :=
  if is_lower_char c then ascii_of_nat (nat_of_ascii c - 32) else c.

Definition lower_char (c : ascii) : ascii :=
  if is_upper_char c then ascii_of_nat (nat_of_ascii c + 32) else c.

Fixpoint map_str (f : ascii -> ascii) (s : string) : string :=
  match s with
  | EmptyString => EmptyString
  | String c s' => String (f c) (map_str f s')
  end.

(** [str.upper()] and [str.lower()] of an ASCII text *)
Definition upper (s : string) : string := map_str upper_char s.
Definition lower (s : string) : string := map_str lower_char s.

(** the ASCII characters that [str.strip()] removes: TAB..CR, FS..US and
    the space *)
Definition is_space (c : ascii) : bool :=
  let n := nat_of_ascii c in
  ((9 <=? n) && (n <=? 13)) || ((28 <=? n) && (n <=? 32)).

Definition is_digit (c : ascii) : bool :=
  let n := nat_of_ascii c in (48 <=? n) && (n <=? 57).

Fixpoint lstrip (s : string) : string :=
  match s with
  | EmptyString => EmptyString
  | String c s' => if is_space c then lstrip s' else s
  end.

Fixpoint all_space (s : string) : bool :=
  match s with
  | EmptyString => true
  | String c s' => is_space c && all_space s'
  end.

Fixpoint rstrip (s : string) : string :=
  match s with
  | EmptyString => EmptyString
  | String c s' => if all_space s then EmptyString else String c (rstrip s')
  end.

(** [str.strip()] *)
Definition strip (s : string) : string := rstrip (lstrip s).

Fixpoint all_digits (s : string) : bool :=
  match s with
  | EmptyString => true
  | String c s' => is_digit c && all_digits s'
  end.

(** [str.isdigit()]: false on the empty string *)
Definition isdigit (s : string) : bool :=
  match s with
  | EmptyString => false
  | _ => all_digits s
  end.

(** [s.startswith(p)] *)
Definition startswith (s p : string) : bool := String.prefix p s.

(** [sub in s] *)
Fixpoint contains (sub s : string) : bool :=
  String.prefix sub s ||
  match s with
  | EmptyString => false
  | String _ s' => contains sub s'
  end.

(** [s.split(sep)] for a non-empty [sep]: the text is cut at the
    non-overlapping occurrences of [sep] found from the left. [skip]
    counts the characters of a separator still to be passed over, [cur]
    is the piece being collected. *)
Fixpoint split_go (sep : string) (skip : nat) (cur : string) (s : string)
  : list string :=
  match s with
  | EmptyString => [cur]
  | String c s' =>
      match skip with
      | S k => split_go sep k cur s'
      | O =>
          if String.prefix sep s
          then cur :: split_go sep (String.length sep - 1) EmptyString s'
          else split_go sep O (cur ++ String c EmptyString) s'
      end
  end.

Definition split (s sep : string) : list string := split_go sep O EmptyString s.

(** [s.split()] on whitespace, as used for the tokens of a [class]
    attribute *)
Fixpoint words_go (cur : string) (s : string) : list string :=
  match s with
  | EmptyString => match cur with EmptyString => [] | _ => [cur] end
  | String c s' =>
      if is_space c
      then match cur with
           | EmptyString => words_go EmptyString s'
           | _ => cur :: words_go EmptyString s'
           end
      else words_go (cur ++ String c EmptyString) s'
  end.

Definition words (s : string) : list string := words_go EmptyString s.

(** the form [YYYY-MM-DD] of a text [DD/MM/YYYY] *)
Definition iso_date (d : string) : string :=
  (substring 6 4 d ++ "-" ++ substring 3 2 d ++ "-" ++ substring 0 2 d)%string.

Fixpoint concat (l : list string) : string :=
  match l with
  | [] => EmptyString
  | s :: l' => s ++ concat l'
  end.

(** [s[:n]] and [s[n:]] *)
Fixpoint take (n : nat) (s : string) : string :=
  match n, s with
  | S k, String c s' => String c (take k s')
  | _, _ => EmptyString
  end.

Fixpoint drop (n : nat) (s : string) : string :=
  match n, s with
  | S k, String _ s' => drop k s'
  | _, _ => s
  end.


(** [p] is the text of [s] before the first occurrence of [sep], [r] the
    text behind that occurrence *)
Definition cut_at_first (sep s p r : string) : Prop :=
  s = (p ++ sep ++ r)%string /\
  forall j, j < String.length p -> String.prefix sep (drop j s) = false.

End PyStr.

(** ** The regular expressions of the scraper *)

Module Regex.
Import PyStr.

(** One attempt to match [\d{2}/\d{2}/\d{4}] at the head of the text. *)
Definition date_at (s : string) : option string :=
  match s with
  | String d1 (String d2 (String s1 (String m1 (String m2 (String s2
      (String y1 (String y2 (String y3 (String y4 _))))))))) =>
      if is_digit d1 && is_digit d2 && Ascii.eqb s1 "/" &&
         is_digit m1 && is_digit m2 && Ascii.eqb s2 "/" &&
         is_digit y1 && is_digit y2 && is_digit y3 && is_digit y4
      then Some (take 10 s) else None
  | _ => None
  end.

(** [re.findall(r'\d{2}/\d{2}/\d{4}', s)]: matches are taken from the left
    and do not overlap; after a match the scan resumes behind it. *)
Fixpoint findall_dates_go (skip : nat) (s : string) : list string :=
  match s with
  | EmptyString => []
  | String _ s' =>
      match skip with
      | S k => findall_dates_go k s'
      | O =>
          match date_at s with
          | Some d => d :: findall_dates_go 9 s'
          | None => findall_dates_go O s'
          end
      end
  end.

Definition findall_dates (s : string) : list string := findall_dates_go O s.

(** [d] is a text of the shape [DD/MM/YYYY], nothing before or behind *)
Definition is_date_text (d : string) : Prop := date_at d = Some d.

(** the longest run of digits at the head of the text, and what follows *)
Fixpoint span_digits (s : string) : string * string :=
  match s with
  | String c s' =>
      if is_digit c
      then let (d, r) := span_digits s' in (String c d, r)
      else (EmptyString, s)
  | EmptyString => (EmptyString, EmptyString)
  end.

(** skip [[^>]*] and the closing [>] of the opening tag *)
Fixpoint after_gt (s : string) : option string :=
  match s with
  | EmptyString => None
  | String c s' => if Ascii.eqb c ">" then Some s' else after_gt s'
  end.

(** One attempt to match [<span[^>]*>(\d{3,6})</span>] at the head of the
    text; the result is the group and the length of the whole match.
    The pattern leaves the matcher no choice: [[^>]*] ends at the first
    [>], and the digits must run up to [</span>]. *)
Definition span_at (s : string) : option (string * nat) :=
  if String.prefix "<span" s then
    match after_gt (drop 5 s) with
    | None => None
    | Some body =>
        let (d, r) := span_digits body in
        if (3 <=? String.length d) && (String.length d <=? 6) &&
           String.prefix "</span>" r
        then Some (d, String.length s - String.length r + 7)
        else None
    end
  else None.

(** [re.findall(r'<span[^>]*>(\d{3,6})</span>', s)]: the groups of the
    matches, from the left, not overlapping. *)
Fixpoint findall_span_go (skip : nat) (s : string) : list string :=
  match s with
  | EmptyString => []
  | String _ s' =>
      match skip with
      | S k => findall_span_go k s'
      | O =>
          match span_at s with
          | Some (d, n) => d :: findall_span_go (n - 1) s'
          | None => findall_span_go O s'
          end
      end
  end.

Definition findall_span (s : string) : list string := findall_span_go O s.

End Regex.

Import PyStr.

(** ** The BeautifulSoup tree

    A parsed page is a tree of tags and text. [Text] nodes are the strings
    that [get_text] collects; comments, doctypes and the strings of script
    and style elements are left out of the tree, no query of the scraper
    sees them. Tag and attribute names are as [html.parser] delivers them,
    in lower case. *)

Module Soup.

#[warnings="-register-all"]
Inductive Node : Type :=
| Text (s : string)
| Tag (name : string) (attrs : list (string * string)) (children : list Node).

(** [tag.descendants]: every node below [n], in document order *)
Fixpoint descendants (n : Node) : list Node :=
  match n with
  | Text _ => []
  | Tag _ _ cs =>
      (fix go (l : list Node) : list Node :=
         match l with
         | [] => []
         | c :: l' => c :: descendants c ++ go l'
         end) cs
  end.

(** [tag.get(key)] *)
Fixpoint attr_get (key : string) (attrs : list (string * string)) : option string :=
  match attrs with
  | [] => None
  | (k, v) :: rest => if String.eqb k key then Some v else attr_get key rest
  end.

Definition get (n : Node) (key : string) : option string :=
  match n with
  | Text _ => None
  | Tag _ attrs _ => attr_get key attrs
  end.

(** [link.get('href', '')] *)
Definition get_default (n : Node) (key default : string) : string :=
  match get n key with Some v => v | None => default end.

Definition is_tag (name : string) (n : Node) : bool :=
  match n with
  | Text _ => false
  | Tag nm _ _ => String.eqb nm name
  end.

(** [tag.find_all(name)] *)
Definition find_all (name : string) (n : Node) : list Node :=
  filter (is_tag name) (descendants n).

(** [tag.find_all('a', href=True)]: the attribute has to be present *)
Definition find_all_href (name : string) (n : Node) : list Node :=
  filter (fun x => is_tag name x &&
                   match get x "href" with Some _ => true | None => false end)
         (descendants n).

(** [tag.get_text(strip=True)]: every string below the tag is stripped,
    the empty ones are dropped, the rest is joined without a separator *)
Definition stripped_strings (n : Node) : list string :=
  flat_map (fun x => match x with
                     | Text s => match strip s with
                                 | EmptyString => []
                                 | t => [t]
                                 end
                     | Tag _ _ _ => []
                     end) (descendants n).

Definition get_text_strip (n : Node) : string := concat (stripped_strings n).

(** The four CSS selectors handed to [select_one]. *)
Inductive Selector : Type :=
| ByTagName (name : string)                 (* "table" *)
| ByClass (token : string)                  (* ".table" *)
| ById (id : string)                        (* "#results-table" *)
| ByAttrContains (attr sub : string).       (* "[class*='table']" *)

Definition matches (sel : Selector) (n : Node) : bool :=
  match n with
  | Text _ => false
  | Tag nm attrs _ =>
      match sel with
      | ByTagName name => String.eqb nm name
      | ByClass token =>
          match attr_get "class" attrs with
          | Some v => existsb (String.eqb token) (words v)
          | None => false
          end
      | ById id =>
          match attr_get "id" attrs with
          | Some v => String.eqb v id
          | None => false
          end
      | ByAttrContains attr sub =>
          match attr_get attr attrs with
          | Some v => contains sub v
          | None => false
          end
      end
  end.

(** [soup.select_one(selector)]: the first match in document order *)
Definition select_one (sel : Selector) (soup : Node) : option Node :=
  find (matches sel) (descendants soup).

End Soup.

(** ** Exceptions, results and the outside world *)

Inductive ExnKind : Type :=
| TimeoutException
| NoSuchElementException
| OtherException.

(** an exception with the text that [str(e)] gives *)
Record Exn : Type := mkExn { exn_kind : ExnKind; exn_msg : string }.

Definition res (A : Type) : Type := (Exn + A)%type.

(** [selenium.webdriver.common.by.By] *)
Inductive By : Type := XPATH | TAG_NAME.

(** a [requests.Response] *)
Record Response : Type := mkResponse {
  status_code : Z;
  headers : list (string * string);
  content : string
}.

(** What the class does not implement itself: Chrome and the Selenium
    commands, [requests.get], [time.sleep], [BeautifulSoup] and [urljoin].
    [W] is the state of the world outside the process, [H] a browser
    session as the [webdriver.Chrome] object names it, [E] a
    [WebElement]. Commands change the world; queries only read it. *)
Record Env : Type := mkEnv {
  W : Type;
  H : Type;
  E : Type;
  (* ChromeDriverManager().install(), Service(...), webdriver.Chrome(...) *)
  chrome_start : W -> res H * W;
  (* driver.execute_script(script, *args) *)
  execute_script : H -> string -> list E -> W -> res unit * W;
  (* driver.quit() *)
  quit : H -> W -> res unit * W;
  (* driver.get(url) *)
  driver_get : H -> string -> W -> res unit * W;
  (* WebDriverWait(driver, timeout).until(EC.presence_of_element_located((by, value))) *)
  wait_presence : H -> Z -> By -> string -> W -> res E * W;
  (* driver.find_element(By.XPATH, selector) *)
  find_element : H -> string -> W -> res E;
  (* driver.find_elements(By.XPATH, selector) *)
  find_elements : H -> string -> W -> res (list E);
  (* driver.page_source *)
  page_source : H -> W -> res string;
  (* element.text *)
  elem_text : E -> W -> res string;
  (* element.get_attribute(name) *)
  get_attribute : E -> string -> W -> res (option string);
  (* element.clear() *)
  elem_clear : E -> W -> res unit * W;
  (* element.send_keys(text) *)
  send_keys : E -> string -> W -> res unit * W;
  (* Select(element).select_by_visible_text(text) *)
  select_by_visible_text : E -> string -> W -> res unit * W;
  (* Select(element).select_by_value(value) *)
  select_by_value : E -> string -> W -> res unit * W;
  (* time.sleep(seconds) *)
  sleep : Z -> W -> W;
  (* requests.get(url, headers=..., timeout=30) *)
  requests_get : string -> W -> res Response * W;
  (* BeautifulSoup(html, 'html.parser') *)
  BeautifulSoup : string -> Soup.Node;
  (* urllib.parse.urljoin(base, url); it raises ValueError on a malformed
     host *)
  urljoin : string -> string -> res string
}.

(** The commands sent to the outside, in the order they were issued. *)
Inductive Event (H E : Type) : Type :=
| EvStart (h : option H)   (* webdriver.Chrome was called: the session, if one came up *)
| EvScript (h : H) (script : string) (args : list E)
| EvQuit (h : H)
| EvGet (h : H) (url : string)
| EvWait (h : H) (timeout : Z) (by_ : By) (value : string)
| EvClear (e : E)
| EvSendKeys (e : E) (text : string)
| EvSelectText (e : E) (text : string)
| EvSelectValue (e : E) (value : string)
| EvSleep (seconds : Z)
| EvRequest (url : string).

Arguments EvStart {H E} h.
Arguments EvScript {H E} h script args.
Arguments EvQuit {H E} h.
Arguments EvGet {H E} h url.
Arguments EvWait {H E} h timeout by_ value.
Arguments EvClear {H E} e.
Arguments EvSendKeys {H E} e text.
Arguments EvSelectText {H E} e text.
Arguments EvSelectValue {H E} e value.
Arguments EvSleep {H E} seconds.
Arguments EvRequest {H E} url.

(** ** What [scrape_case_data] returns *)

(** an entry of ['orders'] *)
Record Order : Type := mkOrder {
  order_date : option string;
  order_type : string;
  pdf_url : string
}.

Record CaseData : Type := mkCaseData {
  plaintiff : string;
  defendant : string;
  filing_date : option string;
  next_hearing : option string;
  status : string;
  orders : list Order;
  raw_html : string
}.

(** the dictionary with ['success': True] and its data, or with
    ['success': False] and an ['error'] *)
Inductive ScrapeResult : Type :=
| Success (data : CaseData)
| Failure (error : string).

Definition success (r : ScrapeResult) : bool :=
  match r with Success _ => true | Failure _ => false end.

(** the attributes set in [__init__] that stay fixed *)
Record Config : Type := mkConfig {
  base_url : string;
  case_search_url : string;
  timeout : Z;
  max_retries : Z;
  request_delay : Z
}.

(** [__init__] with the values of SELENIUM_TIMEOUT, MAX_RETRIES and
    REQUEST_DELAY *)
Definition init (selenium_timeout retries delay : Z) : Config :=
  {| base_url := "https://delhihighcourt.nic.in";
     case_search_url := "https://delhihighcourt.nic.in/app/get-case-type-status";
     timeout := selenium_timeout;
     max_retries := retries;
     request_delay := delay |}.

Definition default_config : Config := init 30 3 5.

(** ** The scraper object: state and control flow *)

Section Scraper.

Variable env : Env.
Variable self : Config.

(** the mutable part of the object and of the world around it *)
Record State : Type := mkState {
  world : W env;
  driver : option (H env);          (* self.driver *)
  log : list (Event (H env) (E env))
}.

(** a method: it raises or returns, and leaves a state *)
Definition M (A : Type) : Type := State -> res A * State.

Definition ret {A} (a : A) : M A := fun st => (inr a, st).

Definition raise {A} (e : Exn) : M A := fun st => (inl e, st).

Definition bind {A B} (m : M A) (k : A -> M B) : M B :=
  fun st => match m st with
            | (inl e, st') => (inl e, st')
            | (inr a, st') => k a st'
            end.

Notation "x <- m ;; k" := (bind m (fun x => k))
  (at level 61, m at next level, right associativity).
Notation "m ;;; k" := (bind m (fun _ => k))
  (at level 61, right associativity).

(** [try: m except Exception as e: handler e] *)
Definition try_except {A} (m : M A) (handler : Exn -> M A) : M A :=
  fun st => match m st with
            | (inl e, st') => handler e st'
            | (inr a, st') => (inr a, st')
            end.

(** [try: m finally: cleanup]; [cleanup] also runs when [m] leaves by
    [return] or [continue], which [m] reports in its value *)
Definition try_finally {A} (m : M A) (cleanup : M unit) : M A :=
  fun st => match m st with
            | (r, st') =>
                match cleanup st' with
                | (inl e, st'') => (inl e, st'')
                | (inr _, st'') => (r, st'')
                end
            end.

(** run [m] and hand its outcome over as a value *)
Definition attempt_ {A} (m : M A) : M (res A) :=
  fun st => match m st with (r, st') => (inr r, st') end.

(** a command: it is logged, then the world answers *)
Definition command {A} (ev : Event (H env) (E env))
           (f : W env -> res A * W env) : M A :=
  fun st => match f (world st) with
            | (r, w') => (r, {| world := w'; driver := driver st;
                                log := log st ++ [ev] |})
            end.

(** a query reads the world *)
Definition query {A} (f : W env -> res A) : M A :=
  fun st => (f (world st), st).

Definition lift_res {A} (r : res A) : M A := fun st => (r, st).

Definition set_driver (d : option (H env)) : M unit :=
  fun st => (inr tt, {| world := world st; driver := d; log := log st |}).

Definition attribute_error : Exn :=
  mkExn OtherException "'NoneType' object has no attribute".

(** [self.driver], to be used as a session *)
Definition the_driver : M (H env) :=
  fun st => match driver st with
            | Some h => (inr h, st)
            | None => (inl attribute_error, st)
            end.

(** [webdriver.Chrome(...)]: the log keeps the call and the session it
    gave, if any *)
Definition start_chrome : M (H env) :=
  fun st => match chrome_start env (world st) with
            | (inr h, w') => (inr h, {| world := w'; driver := driver st;
                                        log := log st ++ [EvStart (Some h)] |})
            | (inl e, w') => (inl e, {| world := w'; driver := driver st;
                                        log := log st ++ [EvStart None] |})
            end.

Definition time_sleep (seconds : Z) : M unit :=
  command (EvSleep seconds) (fun w => (inr tt, sleep env seconds w)).

Definition do_execute_script (script : string) (args : list (E env)) : M unit :=
  h <- the_driver ;; command (EvScript h script args) (execute_script env h script args).

Definition do_get (url : string) : M unit :=
  h <- the_driver ;; command (EvGet h url) (driver_get env h url).

Definition do_wait (t : Z) (by_ : By) (value : string) : M (E env) :=
  h <- the_driver ;; command (EvWait h t by_ value) (wait_presence env h t by_ value).

Definition do_find_element (selector : string) : M (E env) :=
  h <- the_driver ;; query (find_element env h selector).

Definition do_find_elements (selector : string) : M (list (E env)) :=
  h <- the_driver ;; query (find_elements env h selector).

Definition do_page_source : M string :=
  h <- the_driver ;; query (page_source env h).

Definition do_clear (e : E env) : M unit :=
  command (EvClear e) (elem_clear env e).

Definition do_send_keys (e : E env) (text : string) : M unit :=
  command (EvSendKeys e text) (send_keys env e text).

Definition scroll_script : string := "arguments[0].scrollIntoView(true);".
Definition click_script : string := "arguments[0].click();".
Definition stealth_script : string :=
  "Object.defineProperty(navigator, 'webdriver', {get: () => undefined})".

(** the pattern [for selector in selectors: try: ...; done = True; break
    except Exception: continue], with the value of [done] after the loop *)
Fixpoint try_selectors (selectors : list string) (action : string -> M unit)
  : M bool :=
  match selectors with
  | [] => ret false
  | selector :: rest =>
      done <- try_except (action selector ;;; ret true) (fun _ => ret false) ;;
      if done then ret true else try_selectors rest action
  end.

(** ** The methods of [CourtScraper] *)

(** [_setup_driver] *)
Definition _setup_driver : M bool :=
  try_except
    (h <- start_chrome ;;
     set_driver (Some h) ;;;
     do_execute_script stealth_script [] ;;;
     ret true)
    (fun _ => ret false).

(** [_close_driver] *)
Definition _close_driver : M unit :=
  fun st =>
    match driver st with
    | Some h =>
        (try_except (command (EvQuit h) (quit env h)) (fun _ => ret tt) ;;;
         set_driver None) st
    | None => (inr tt, st)
    end.

(** [_fill_search_form_enhanced] *)
Definition case_type_selectors : list string :=
  [ "//select[contains(@id,'case_type')]";
    "//select[contains(@name,'case_type')]";
    "//select[contains(@class,'case_type')]";
    "//select[1]" ].

Definition case_number_selectors : list string :=
  [ "//input[contains(@id,'case_number')]";
    "//input[contains(@name,'case_number')]";
    "//input[contains(@placeholder,'case')]";
    "//input[@type='text'][1]" ].

Definition year_selectors : list string :=
  [ "//select[contains(@id,'case_year')]";
    "//select[contains(@name,'year')]";
    "//select[contains(@class,'year')]";
    "//select[last()]" ].

Definition _fill_search_form_enhanced (case_type case_number filing_year : string)
  : M bool :=
  try_except
    (case_type_filled <-
       try_selectors case_type_selectors (fun selector =>
         e <- do_wait (timeout self) XPATH selector ;;
         command (EvSelectText e case_type) (select_by_visible_text env e case_type)) ;;
     if negb case_type_filled then ret false else
     case_number_filled <-
       try_selectors case_number_selectors (fun selector =>
         e <- do_find_element selector ;;
         do_clear e ;;;
         do_send_keys e case_number) ;;
     if negb case_number_filled then ret false else
     year_filled <-
       try_selectors year_selectors (fun selector =>
         e <- do_find_element selector ;;
         command (EvSelectValue e filing_year) (select_by_value env e filing_year)) ;;
     if negb year_filled then ret false else
     ret true)
    (fun _ => ret false).

(** [_handle_captcha_enhanced] *)
Definition captcha_selectors : list string :=
  [ "//span[contains(@class,'captcha')]";
    "//span[contains(@id,'captcha')]";
    "//div[contains(@class,'captcha')]//span";
    "//div[contains(@id,'captcha')]//span";
    "//span[contains(text(),'')]";
    "//*[contains(@class,'captcha')]";
    "//*[contains(@id,'captcha')]" ].

Definition captcha_input_selectors : list string :=
  [ "//input[contains(@id,'captcha')]";
    "//input[contains(@name,'captcha')]";
    "//input[contains(@placeholder,'captcha')]";
    "//input[@type='text'][last()]" ].

(** [text and text.isdigit() and len(text) >= 3] *)
Definition looks_like_captcha (text : string) : bool :=
  negb (String.eqb text "") && isdigit text && (3 <=? String.length text).

(** the inner loop over [potential_elements] *)
Fixpoint scan_elements (elements : list (E env)) : M (option string) :=
  match elements with
  | [] => ret None
  | element :: rest =>
      t <- query (elem_text env element) ;;
      let text := strip t in
      if looks_like_captcha text then ret (Some text) else scan_elements rest
  end.

(** the loop over [captcha_selectors]; the value is [captcha_text] *)
Fixpoint detect_captcha (selectors : list string) : M (option string) :=
  match selectors with
  | [] => ret None
  | selector :: rest =>
      found <- try_except
                 (potential_elements <- do_find_elements selector ;;
                  scan_elements potential_elements)
                 (fun _ => ret None) ;;
      match found with
      | Some text => ret (Some text)
      | None => detect_captcha rest
      end
  end.

(** the scan of [page_source] when no element gave a text *)
Definition captcha_from_source : M (option string) :=
  try_except
    (page_text <- do_page_source ;;
     match Regex.findall_span page_text with
     | first :: _ => ret (Some first)
     | [] => ret None
     end)
    (fun _ => ret None).

Definition _handle_captcha_enhanced : M bool :=
  try_except
    (found <- detect_captcha captcha_selectors ;;
     captcha_text <- match found with
                     | Some text => ret (Some text)
                     | None => captcha_from_source
                     end ;;
     match captcha_text with
     | None => ret true
     | Some text =>
         captcha_filled <-
           try_selectors captcha_input_selectors (fun selector =>
             captcha_input <- do_find_element selector ;;
             do_clear captcha_input ;;;
             do_send_keys captcha_input text) ;;
         if negb captcha_filled then ret false else ret true
     end)
    (fun _ => ret false).

(** [_submit_form] *)
Definition submit_selectors : list string :=
  [ "//button[contains(text(),'Submit')]";
    "//input[@type='submit']";
    "//button[@type='submit']";
    "//button[contains(@class,'submit')]";
    "//input[contains(@value,'Submit')]" ].

Definition _submit_form : M bool :=
  try_except
    (try_selectors submit_selectors (fun selector =>
       submit_button <- do_find_element selector ;;
       do_execute_script scroll_script [submit_button] ;;;
       time_sleep 1 ;;;
       do_execute_script click_script [submit_button]))
    (fun _ => ret false).

(** [_check_orders_page] *)
Definition orders_selectors : list string :=
  [ "//a[contains(text(),'Orders')]";
    "//a[contains(text(),'Order')]";
    "//a[contains(@href,'order')]" ].

Definition pdf_anchor_xpath : string := "//a[contains(@href, '.pdf')]".

(** the loop over [pdf_elements]. [pdf_urls] is one list for the whole
    method: what was appended before an exception stays in it. The flag
    tells whether the loop came to its end. *)
Fixpoint collect_hrefs (elements : list (E env)) (pdf_urls : list string)
  : M (list string * bool) :=
  match elements with
  | [] => ret (pdf_urls, true)
  | element :: rest =>
      r <- attempt_ (query (get_attribute env element "href")) ;;
      match r with
      | inl _ => ret (pdf_urls, false)
      | inr None => collect_hrefs rest pdf_urls
      | inr (Some href) =>
          if String.eqb href "" then collect_hrefs rest pdf_urls
          else if startswith href "http" then collect_hrefs rest (pdf_urls ++ [href])
          else
            match urljoin env (base_url self) href with
            | inl _ => ret (pdf_urls, false)
            | inr full_url => collect_hrefs rest (pdf_urls ++ [full_url])
            end
      end
  end.

Fixpoint orders_loop (selectors : list string) (pdf_urls : list string)
  : M (list string) :=
  match selectors with
  | [] => ret pdf_urls
  | selector :: rest =>
      r <- attempt_
             (orders_link <- do_find_element selector ;;
              do_execute_script click_script [orders_link] ;;;
              time_sleep 3 ;;;
              do_wait 10 XPATH "//table" ;;;
              do_find_elements pdf_anchor_xpath) ;;
      match r with
      | inl _ => orders_loop rest pdf_urls
      | inr pdf_elements =>
          c <- collect_hrefs pdf_elements pdf_urls ;;
          if snd c then ret (fst c) else orders_loop rest (fst c)
      end
  end.

Definition _check_orders_page : M (list string) :=
  orders_loop orders_selectors [].

(** [_extract_pdfs_enhanced] *)

(** the [href]s of the [.pdf] anchors below a node, in document order *)
Definition pdf_hrefs (n : Soup.Node) : list string :=
  filter (fun href => contains ".pdf" (lower href))
         (map (fun link => Soup.get_default link "href" "")
              (Soup.find_all_href "a" n)).

(** the loop that joins each [href] to [base_url] and appends it to
    [pdf_urls]: the first [urljoin] that raises ends it *)
Fixpoint resolve_all (hrefs : list string) : res (list string) :=
  match hrefs with
  | [] => inr []
  | href :: rest =>
      match urljoin env (base_url self) href with
      | inl e => inl e
      | inr full_url =>
          match resolve_all rest with
          | inl e => inl e
          | inr pdf_urls => inr (full_url :: pdf_urls)
          end
      end
  end.

(** "Remove duplicates while preserving order" *)
Definition unique (pdf_urls : list string) : list string :=
  fold_left (fun unique_pdfs url =>
               if existsb (String.eqb url) unique_pdfs then unique_pdfs
               else unique_pdfs ++ [url])
            pdf_urls [].

(** the same removal read recursively: [seen] is what was kept so far *)
Fixpoint first_seen (seen l : list string) : list string :=
  match l with
  | [] => []
  | x :: r => if existsb (String.eqb x) seen then first_seen seen r
              else x :: first_seen (seen ++ [x]) r
  end.

Definition _extract_pdfs_enhanced (soup : Soup.Node) (cols : list Soup.Node)
  : M (list string) :=
  try_except
    (pdf_urls <- lift_res (resolve_all (flat_map pdf_hrefs cols)) ;;
     pdf_urls <- match pdf_urls with
                 | [] => _check_orders_page
                 | _ => ret pdf_urls
                 end ;;
     pdf_urls <- match pdf_urls with
                 | [] => lift_res (resolve_all (pdf_hrefs soup))
                 | _ => ret pdf_urls
                 end ;;
     ret (unique pdf_urls))
    (fun _ => ret []).

(** [_parse_case_results_enhanced] *)
Definition no_record_phrases : list string :=
  [ "no record found"; "no data found"; "record not found" ].

Definition table_selectors : list Soup.Selector :=
  [ Soup.ByTagName "table";
    Soup.ByClass "table";
    Soup.ById "results-table";
    Soup.ByAttrContains "class" "table" ].

(** the loop over [table_selectors]; the value is [case_table] *)
Fixpoint find_table (selectors : list Soup.Selector) (soup : Soup.Node)
  : option Soup.Node :=
  match selectors with
  | [] => None
  | selector :: rest =>
      match Soup.select_one selector soup with
      | Some t => Some t
      | None => find_table rest soup
      end
  end.

Definition index_error : Exn := mkExn OtherException "list index out of range".

(** the parties: lines 384-391, given [parties_text] *)
Definition split_parties (parties_text : string) : res (string * string) :=
  if contains "VS." (upper parties_text) then
    match split (upper parties_text) "VS." with
    | p0 :: p1 :: _ => inr (strip p0, strip p1)
    | _ => inl index_error
    end
  else inr (parties_text, "N/A").

(** [f"{parts[2]}-{parts[1]}-{parts[0]}"] for [parts = d.split('/')] *)
Definition convert_date (d : string) : res string :=
  match split d "/" with
  | p0 :: p1 :: p2 :: _ => inr (p2 ++ "-" ++ p1 ++ "-" ++ p0)%string
  | _ => inl index_error
  end.

(** the dates: lines 395-412, given [listing_text]; the value is
    [(filing_date, next_hearing_date)] *)
Definition extract_dates (listing_text : string) : option string * option string :=
  match Regex.findall_dates listing_text with
  | [] => (None, None)
  | d0 :: more =>
      match convert_date d0 with
      | inl _ => (None, None)
      | inr filing =>
          match more with
          | [] => (Some filing, None)
          | d1 :: _ =>
              match convert_date d1 with
              | inl _ => (Some filing, None)
              | inr hearing => (Some filing, Some hearing)
              end
          end
      end
  end.

(** [cols[i].get_text(strip=True) if len(cols) > i else ""] *)
Definition col_text (cols : list Soup.Node) (i : nat) : string :=
  match nth_error cols i with
  | Some col => Soup.get_text_strip col
  | None => ""
  end.

Definition _parse_case_results_enhanced (html_content : string) : M ScrapeResult :=
  let soup := BeautifulSoup env html_content in
  if existsb (fun phrase => contains phrase (lower html_content)) no_record_phrases
  then ret (Failure "No record found for the specified case.")
  else
    match find_table table_selectors soup with
    | None => ret (Failure "Results table not found on the page.")
    | Some case_table =>
        match Soup.find_all "tr" case_table with
        | _ :: row :: _ =>
            try_except
              (let cols := Soup.find_all "td" row in
               parties <- lift_res (split_parties (col_text cols 2)) ;;
               let dates := extract_dates (col_text cols 3) in
               pdf_urls <- _extract_pdfs_enhanced soup cols ;;
               let orders := map (fun url => mkOrder (fst dates) "Order" url) pdf_urls in
               ret (Success {| plaintiff := fst parties;
                               defendant := snd parties;
                               filing_date := fst dates;
                               next_hearing := snd dates;
                               status := "Active";
                               orders := orders;
                               raw_html := html_content |}))
              (fun e => ret (Failure ("Error parsing results: " ++ exn_msg e)%string))
        | _ => ret (Failure "No data rows found in the results table.")
        end
    end.

(** [scrape_case_data] *)

(** how the body of the loop is left *)
Inductive Ctl : Type :=
| Continue                      (* continue *)
| Return (result : ScrapeResult)  (* return result *)
| Fallthrough.                  (* the end of the try statement is reached *)

Definition is_last (attempt : Z) : bool := (attempt =? max_retries self - 1)%Z.

(** the [try] block from the submit stage on *)
Definition submit_and_parse (attempt : Z) : M Ctl :=
  submitted <- _submit_form ;;
  if negb submitted then ret Continue else
  time_sleep (request_delay self) ;;;
  html <- do_page_source ;;
  result <- _parse_case_results_enhanced html ;;
  if success result then ret (Return result)
  else if is_last attempt then ret (Return result)
  else ret Continue.

(** the [try] block *)
Definition try_block (case_type case_number filing_year : string) (attempt : Z)
  : M Ctl :=
  do_get (case_search_url self) ;;;
  do_wait (timeout self) TAG_NAME "body" ;;;
  time_sleep 3 ;;;
  filled <- _fill_search_form_enhanced case_type case_number filing_year ;;
  if negb filled then ret Continue else
  solved <- _handle_captcha_enhanced ;;
  if negb solved then ret Continue else
  submit_and_parse attempt.

(** the two [except] clauses *)
Definition except_clauses (attempt : Z) (e : Exn) : M Ctl :=
  match exn_kind e with
  | TimeoutException | NoSuchElementException =>
      if is_last attempt
      then ret (Return (Failure "Failed to find required elements on the page"))
      else ret Fallthrough
  | OtherException =>
      if is_last attempt
      then ret (Return (Failure (exn_msg e)))
      else ret Fallthrough
  end.

(** one turn of the [for] loop *)
Definition loop_body (case_type case_number filing_year : string) (attempt : Z)
  : M Ctl :=
  ready <- _setup_driver ;;
  if negb ready then ret Continue else
  c <- try_finally
         (try_except (try_block case_type case_number filing_year attempt)
                     (except_clauses attempt))
         _close_driver ;;
  match c with
  | Fallthrough =>
      (if (attempt <? max_retries self - 1)%Z then time_sleep 5 else ret tt) ;;;
      ret Fallthrough
  | _ => ret c
  end.

(** [range(n)] *)
Definition range (n : Z) : list Z := map Z.of_nat (seq 0 (Z.to_nat n)).

Fixpoint for_attempts (case_type case_number filing_year : string)
         (attempts : list Z) : M ScrapeResult :=
  match attempts with
  | [] => ret (Failure "All scraping attempts failed")
  | attempt :: rest =>
      c <- loop_body case_type case_number filing_year attempt ;;
      match c with
      | Return result => ret result
      | _ => for_attempts case_type case_number filing_year rest
      end
  end.

Definition scrape_case_data (case_type case_number filing_year : string)
  : M ScrapeResult :=
  for_attempts case_type case_number filing_year (range (max_retries self)).

(** [download_pdf] *)

(** [response.headers.get(key, default)]; the keys of the headers are
    compared without regard to case *)
Fixpoint header_get (hs : list (string * string)) (key default : string) : string :=
  match hs with
  | [] => default
  | (k, v) :: rest =>
      if String.eqb (lower k) (lower key) then v else header_get rest key default
  end.

Definition http_error : Exn := mkExn OtherException "HTTPError".

(** [response.raise_for_status()] *)
Definition raise_for_status (response : Response) : M unit :=
  if ((400 <=? status_code response) && (status_code response <? 600))%Z
  then raise http_error else ret tt.

Definition download_pdf (pdf_url : string) : M (option string) :=
  try_except
    (response <- command (EvRequest pdf_url) (requests_get env pdf_url) ;;
     raise_for_status response ;;;
     if startswith (lower (header_get (headers response) "content-type" ""))
                   "application/pdf"
     then ret (Some (content response))
     else ret None)
    (fun _ => ret None).

(** ** Vocabulary of the statements below *)

(** the page says that there is no record *)
Definition has_no_record_phrase (html_content : string) : bool :=
  existsb (fun phrase => contains phrase (lower html_content)) no_record_phrases.

(** the cells of the first data row, when the parser gets as far as
    reading them: no no-record phrase, a table, two rows or more *)
Definition data_row_cols (html_content : string) : option (list Soup.Node) :=
  if has_no_record_phrase html_content then None
  else match find_table table_selectors (BeautifulSoup env html_content) with
       | None => None
       | Some case_table =>
           match Soup.find_all "tr" case_table with
           | _ :: row :: _ => Some (Soup.find_all "td" row)
           | _ => None
           end
       end.


(** the parser has to ask the session for the orders page: it reads the
    first data row and finds no [.pdf] anchor in its cells *)
Definition needs_session (html_content : string) : bool :=
  match data_row_cols html_content with
  | Some cols => match flat_map pdf_hrefs cols with [] => true | _ => false end
  | None => false
  end.

(** the loop ran through [attempts] without a [return], from [st] to [st'] *)
Fixpoint passed_over (case_type case_number filing_year : string)
         (attempts : list Z) (st st' : State) : Prop :=
  match attempts with
  | [] => st' = st
  | attempt :: rest =>
      exists c s, loop_body case_type case_number filing_year attempt st = (inr c, s) /\
                  (c = Continue \/ c = Fallthrough) /\
                  passed_over case_type case_number filing_year rest s st'
  end.

End Scraper.

Arguments ret {env A} a _.
Arguments bind {env A B} m k _.
Arguments mkState {env} world driver log.
Arguments world {env} s.
Arguments driver {env} s.
Arguments log {env} s.

Notation "x <- m ;; k" := (bind m (fun x => k))
  (at level 61, m at next level, right associativity).
Notation "m ;;; k" := (bind m (fun _ => k))
  (at level 61, right associativity).

(** ** A small world to run the scraper in

    One court site reduced to what the scraper asks of it: whether Chrome
    comes up, whether the form is there, the texts the CAPTCHA selectors
    find, the page source, and an orders page with its anchors. Sessions
    are numbered as they are started; an element is named by its text. *)

Module Fixture.

Record World : Type := mkWorld {
  chrome_ok : bool;                   (* Chrome can be launched *)
  script_ok : bool;                   (* the first script runs in it *)
  form_ok : bool;                     (* form fields and buttons are found *)
  captcha : list string;              (* texts under the CAPTCHA selectors *)
  source : string;                    (* driver.page_source *)
  orders_page : option (list string); (* hrefs behind the Orders link *)
  on_orders : bool;                   (* the Orders link was followed *)
  sessions : nat;                     (* sessions started so far *)
  response : Response                 (* what requests.get receives *)
}.

Definition with_orders (b : bool) (w : World) : World :=
  {| chrome_ok := chrome_ok w; script_ok := script_ok w; form_ok := form_ok w;
     captcha := captcha w; source := source w; orders_page := orders_page w;
     on_orders := b; sessions := sessions w; response := response w |}.

Definition started (w : World) : World :=
  {| chrome_ok := chrome_ok w; script_ok := script_ok w; form_ok := form_ok w;
     captcha := captcha w; source := source w; orders_page := orders_page w;
     on_orders := on_orders w; sessions := S (sessions w); response := response w |}.

Definition no_such_element : Exn := mkExn NoSuchElementException "no such element".
Definition timed_out : Exn := mkExn TimeoutException "timeout".
Definition no_chrome : Exn := mkExn OtherException "cannot find Chrome binary".
Definition script_error : Exn := mkExn OtherException "javascript error".

Definition orders_link : string := "Orders".

(** the pages the parser is run on, with the trees [html.parser] builds *)
Definition case_html : string :=
  "<table><tr><th>No</th><th>Case</th><th>Parties</th><th>Listing</th><th>Order</th></tr><tr><td>1</td><td>Civil Appeal 1234/2023</td><td>JOHN DOE VS. STATE OF DELHI</td><td>Filed 15/03/2023 Next 20/06/2023</td><td><a href='/orders/1234.pdf'>Order</a></td></tr></table>".

Definition case_soup : Soup.Node :=
  Soup.Tag "[document]" []
    [Soup.Tag "table" []
       [Soup.Tag "tr" []
          [Soup.Tag "th" [] [Soup.Text "No"]; Soup.Tag "th" [] [Soup.Text "Case"];
           Soup.Tag "th" [] [Soup.Text "Parties"]; Soup.Tag "th" [] [Soup.Text "Listing"];
           Soup.Tag "th" [] [Soup.Text "Order"]];
        Soup.Tag "tr" []
          [Soup.Tag "td" [] [Soup.Text "1"];
           Soup.Tag "td" [] [Soup.Text "Civil Appeal 1234/2023"];
           Soup.Tag "td" [] [Soup.Text "JOHN DOE VS. STATE OF DELHI"];
           Soup.Tag "td" [] [Soup.Text "Filed 15/03/2023 Next 20/06/2023"];
           Soup.Tag "td" []
             [Soup.Tag "a" [("href", "/orders/1234.pdf")] [Soup.Text "Order"]]]]].

Definition empty_html : string :=
  "<table><tr><th>Result</th></tr><tr><td>No record found</td></tr></table>".

Definition empty_soup : Soup.Node :=
  Soup.Tag "[document]" []
    [Soup.Tag "table" []
       [Soup.Tag "tr" [] [Soup.Tag "th" [] [Soup.Text "Result"]];
        Soup.Tag "tr" [] [Soup.Tag "td" [] [Soup.Text "No record found"]]]].

Definition short_html : string :=
  "<table><tr><th>Case</th></tr><tr><td>Civil Appeal 1/2020</td></tr></table>".

Definition short_soup : Soup.Node :=
  Soup.Tag "[document]" []
    [Soup.Tag "table" []
       [Soup.Tag "tr" [] [Soup.Tag "th" [] [Soup.Text "Case"]];
        Soup.Tag "tr" [] [Soup.Tag "td" [] [Soup.Text "Civil Appeal 1/2020"]]]].

Definition repeated_html : string :=
  "<table><tr><th>No</th><th>Order</th><th>Copy</th><th>Judgment</th></tr><tr><td>1</td><td><a href='/o/7.pdf'>Order</a></td><td><a href='/o/7.pdf'>Copy</a> <a href='/o/8.pdf'>Other</a></td><td><a href='https://delhihighcourt.nic.in/o/7.pdf'>Judgment</a></td></tr></table>".

Definition repeated_soup : Soup.Node :=
  Soup.Tag "[document]" []
    [Soup.Tag "table" []
       [Soup.Tag "tr" []
          [Soup.Tag "th" [] [Soup.Text "No"]; Soup.Tag "th" [] [Soup.Text "Order"];
           Soup.Tag "th" [] [Soup.Text "Copy"]; Soup.Tag "th" [] [Soup.Text "Judgment"]];
        Soup.Tag "tr" []
          [Soup.Tag "td" [] [Soup.Text "1"];
           Soup.Tag "td" [] [Soup.Tag "a" [("href", "/o/7.pdf")] [Soup.Text "Order"]];
           Soup.Tag "td" []
             [Soup.Tag "a" [("href", "/o/7.pdf")] [Soup.Text "Copy"]; Soup.Text " ";
              Soup.Tag "a" [("href", "/o/8.pdf")] [Soup.Text "Other"]];
           Soup.Tag "td" []
             [Soup.Tag "a" [("href", "https://delhihighcourt.nic.in/o/7.pdf")]
                [Soup.Text "Judgment"]]]]].

(** a row whose second link has a host that opens a bracket and does not
    close it *)
Definition broken_html : string :=
  "<table><tr><th>No</th><th>Order</th></tr><tr><td>1</td><td><a href='/o/1.pdf'>Order</a> <a href='http://[court/o/2.pdf'>Copy</a></td></tr></table>".

Definition broken_soup : Soup.Node :=
  Soup.Tag "[document]" []
    [Soup.Tag "table" []
       [Soup.Tag "tr" []
          [Soup.Tag "th" [] [Soup.Text "No"]; Soup.Tag "th" [] [Soup.Text "Order"]];
        Soup.Tag "tr" []
          [Soup.Tag "td" [] [Soup.Text "1"];
           Soup.Tag "td" []
             [Soup.Tag "a" [("href", "/o/1.pdf")] [Soup.Text "Order"]; Soup.Text " ";
              Soup.Tag "a" [("href", "http://[court/o/2.pdf")] [Soup.Text "Copy"]]]]].

Definition pages : list (string * Soup.Node) :=
  [ (case_html, case_soup); (empty_html, empty_soup);
    (short_html, short_soup); (repeated_html, repeated_soup);
    (broken_html, broken_soup) ].

Fixpoint lookup_page (html : string) (l : list (string * Soup.Node)) : Soup.Node :=
  match l with
  | [] => Soup.Tag "[document]" [] [Soup.Text html]
  | (h, n) :: rest => if String.eqb h html then n else lookup_page html rest
  end.

Definition is_orders_selector (selector : string) : bool :=
  existsb (String.eqb selector) orders_selectors.

(** [urljoin] on the shapes of link the pages use: an absolute URL
    stays, a path from the root is put behind the base, and a host that
    opens a bracket without closing it raises ValueError *)
Definition invalid_url : Exn := mkExn OtherException "Invalid IPv6 URL".

Definition join (base href : string) : res string :=
  if startswith href "http://[" && negb (contains "]" href) then inl invalid_url
  else if startswith href "http" then inr href
       else inr (base ++ href)%string.

Definition court : Env :=
  {| W := World;
     H := nat;
     E := string;
     chrome_start := fun w =>
       if chrome_ok w then (inr (sessions w), started w) else (inl no_chrome, w);
     execute_script := fun _ script args w =>
       if String.eqb script stealth_script
       then (if script_ok w then inr tt else inl script_error, w)
       else if String.eqb script click_script &&
               match args with [e] => String.eqb e orders_link | _ => false end
            then (inr tt, with_orders true w)
            else (inr tt, w);
     quit := fun _ w => (inr tt, w);
     driver_get := fun _ _ w => (inr tt, with_orders false w);
     wait_presence := fun _ _ _ value w =>
       (if form_ok w then inr value else inl timed_out, w);
     find_element := fun _ selector w =>
       if is_orders_selector selector
       then match orders_page w with
            | Some _ => if on_orders w then inl no_such_element else inr orders_link
            | None => inl no_such_element
            end
       else if form_ok w then inr selector else inl no_such_element;
     find_elements := fun _ selector w =>
       if String.eqb selector pdf_anchor_xpath
       then match orders_page w with
            | Some hrefs => if on_orders w then inr hrefs else inr []
            | None => inr []
            end
       else inr (captcha w);
     page_source := fun _ w => inr (source w);
     elem_text := fun e _ => inr e;
     get_attribute := fun e _ _ => inr (Some e);
     elem_clear := fun _ w => (inr tt, w);
     send_keys := fun _ _ w => (inr tt, w);
     select_by_visible_text := fun _ _ w => (inr tt, w);
     select_by_value := fun _ _ w => (inr tt, w);
     sleep := fun _ w => w;
     requests_get := fun _ w => (inr (response w), w);
     BeautifulSoup := fun html => lookup_page html pages;
     urljoin := join |}.

Definition html_response : Response :=
  {| status_code := 200;
     headers := [("Content-Type", "text/html; charset=utf-8")];
     content := "<html>moved</html>" |}.

Definition pdf_response : Response :=
  {| status_code := 200;
     headers := [("Content-Type", "application/pdf")];
     content := "%PDF-1.4" |}.

(** a site that works and shows the page [html] after the search *)
Definition site (html : string) : World :=
  {| chrome_ok := true; script_ok := true; form_ok := true; captcha := [];
     source := html; orders_page := None; on_orders := false; sessions := 0;
     response := html_response |}.

(** the same site with an Orders link leading to the given anchors *)
Definition site_with_orders (html : string) (hrefs : list string) : World :=
  {| chrome_ok := true; script_ok := true; form_ok := true; captcha := [];
     source := html; orders_page := Some hrefs; on_orders := false; sessions := 0;
     response := html_response |}.


(** no Chrome on the machine *)
Definition no_browser : World :=
  {| chrome_ok := false; script_ok := true; form_ok := true; captcha := [];
     source := ""; orders_page := None; on_orders := false; sessions := 0;
     response := html_response |}.

(** Chrome comes up, the first script raises *)
Definition half_started : World :=
  {| chrome_ok := true; script_ok := false; form_ok := true; captcha := [];
     source := ""; orders_page := None; on_orders := false; sessions := 0;
     response := html_response |}.

Definition fresh (w : World) : State court := mkState (env := court) w None [].

Definition live (w : World) : State court := mkState (env := court) w (Some 0) [].

(** the site without its form: nothing the scraper waits for appears *)
Definition site_without_form : World :=
  {| chrome_ok := true; script_ok := true; form_ok := false; captcha := [];
     source := ""; orders_page := None; on_orders := false; sessions := 0;
     response := html_response |}.

(** the site showing the challenge 4821 *)
Definition site_with_challenge (html : string) : World :=
  {| chrome_ok := true; script_ok := true; form_ok := true; captcha := ["4821"];
     source := html; orders_page := None; on_orders := false; sessions := 0;
     response := html_response |}.

(** the court site with no field to type the challenge into *)
Definition court_without_captcha_input : Env :=
  {| W := World;
     H := nat;
     E := string;
     chrome_start := chrome_start court;
     execute_script := execute_script court;
     quit := quit court;
     driver_get := driver_get court;
     wait_presence := wait_presence court;
     find_element := fun h selector w =>
       if existsb (String.eqb selector) captcha_input_selectors
       then inl no_such_element
       else find_element court h selector w;
     find_elements := find_elements court;
     page_source := page_source court;
     elem_text := elem_text court;
     get_attribute := get_attribute court;
     elem_clear := elem_clear court;
     send_keys := send_keys court;
     select_by_visible_text := select_by_visible_text court;
     select_by_value := select_by_value court;
     sleep := sleep court;
     requests_get := requests_get court;
     BeautifulSoup := BeautifulSoup court;
     urljoin := urljoin court |}.

(** a page that only says that nothing was found *)
Definition notice_html : string := "<p>No record found</p>".

(** the states a search for a missing case goes through: after the first
    and the second turn of the loop, and along the third *)
Definition missing_start : State court := fresh (site notice_html).

Definition missing_after_1 : State court :=
  snd (loop_body court default_config "Civil Appeal" "1234" "2023" 0 missing_start).

Definition missing_after_2 : State court :=
  snd (loop_body court default_config "Civil Appeal" "1234" "2023" 1 missing_after_1).

Definition missing_set_up : State court :=
  snd (_setup_driver court missing_after_2).

Definition missing_filled : State court :=
  snd ((do_get court (case_search_url default_config) ;;;
          do_wait court (timeout default_config) TAG_NAME "body" ;;;
          time_sleep court 3 ;;;
          _fill_search_form_enhanced court default_config "Civil Appeal" "1234" "2023")
           missing_set_up).

Definition missing_solved : State court :=
  snd (_handle_captcha_enhanced court missing_filled).

Definition missing_submitted : State court :=
  snd (_submit_form court missing_solved).

Definition missing_loaded : State court :=
  snd ((time_sleep court (request_delay default_config) ;;; do_page_source court)
           missing_submitted).

End Fixture.

(** ** [utils.py] *)

Module Utils.

Definition newline : ascii := ascii_of_nat 10.
Definition underscore : ascii := ascii_of_nat 95.
Definition blank : ascii := ascii_of_nat 32.

(** the two separators of a case number, [/] and [-] *)
Definition is_separator (c : ascii) : bool :=
  Ascii.eqb c "/" || Ascii.eqb c "-".

(** [re.match(r'^[0-9]+[\/\-]?[0-9]*$', s)]: digits, at most one
    separator, digits again, up to the end of the text or to a line feed
    that ends it (the dollar sign lets that one through) *)
Definition match_case_number (s : string) : bool :=
  let (d1, r) := Regex.span_digits s in
  negb (String.eqb d1 "") &&
  let r1 := match r with
            | String c r' => if is_separator c then r' else r
            | EmptyString => r
            end in
  let (d2, r2) := Regex.span_digits r1 in
  String.eqb r2 "" || String.eqb r2 (String newline "").

(** [validate_case_number] *)
Definition validate_case_number (case_number : string) : bool :=
  if String.eqb case_number "" then false
  else
    let case_number := strip case_number in
    if negb (match_case_number case_number) then false
    else if (String.length case_number <? 1) || (50 <? String.length case_number)
         then false
         else true.

(** the shape the validator accepts: digits, then nothing more, or one
    separator and digits that may be missing *)
Definition case_number_shape (t : string) : Prop :=
  exists d1 d2,
    d1 <> "" /\ all_digits d1 = true /\ all_digits d2 = true /\
    (t = d1 \/ t = (d1 ++ "/" ++ d2)%string \/ t = (d1 ++ "-" ++ d2)%string).

(** [re.split(r'[\/\-]', s)] *)
Fixpoint split_at_separators (cur : string) (s : string) : list string :=
  match s with
  | EmptyString => [cur]
  | String c s' =>
      if is_separator c then cur :: split_at_separators EmptyString s'
      else split_at_separators (cur ++ String c EmptyString) s'
  end.

(** [extract_case_number_parts]: the values under ['number'] and ['year'] *)
Definition extract_case_number_parts (case_number : string) : string * string :=
  if String.eqb case_number "" then ("", "")
  else
    match split_at_separators "" (strip case_number) with
    | p0 :: p1 :: _ => (strip p0, strip p1)
    | _ => (strip case_number, "")
    end.

(** the nine characters that the first substitution replaces, by their
    codes: the angle brackets, the colon, the double quote, the slash, the
    backslash, the bar, the question mark and the asterisk *)
Definition is_problematic (c : ascii) : bool :=
  existsb (Nat.eqb (nat_of_ascii c)) [60; 62; 58; 34; 47; 92; 124; 63; 42].

(** [re.sub(r'_+', '_', s)]: of a run of underscores the last one stays *)
Fixpoint squeeze_underscores (s : string) : string :=
  match s with
  | EmptyString => EmptyString
  | String c s' =>
      if Ascii.eqb c underscore &&
         match s' with
         | String c' _ => Ascii.eqb c' underscore
         | EmptyString => false
         end
      then squeeze_underscores s'
      else String c (squeeze_underscores s')
  end.

Fixpoint lstrip_chars (p : ascii -> bool) (s : string) : string :=
  match s with
  | EmptyString => EmptyString
  | String c s' => if p c then lstrip_chars p s' else s
  end.

Fixpoint all_chars (p : ascii -> bool) (s : string) : bool :=
  match s with
  | EmptyString => true
  | String c s' => p c && all_chars p s'
  end.

Fixpoint rstrip_chars (p : ascii -> bool) (s : string) : string :=
  match s with
  | EmptyString => EmptyString
  | String c s' => if all_chars p s then EmptyString else String c (rstrip_chars p s')
  end.

(** [s.strip('_ ')] *)
Definition strip_underscores_blanks (s : string) : string :=
  let p := fun c => Ascii.eqb c underscore || Ascii.eqb c blank in
  rstrip_chars p (lstrip_chars p s).

(** [sanitize_filename]; [stamp] is
    [datetime.now().strftime("%Y%m%d_%H%M%S")] *)
Definition sanitize_filename (stamp : string) (filename : string) : string :=
  if String.eqb filename "" then "unknown"
  else
    let filename := map_str (fun c => if is_problematic c then underscore else c) filename in
    let filename := squeeze_underscores filename in
    let filename := strip_underscores_blanks filename in
    let filename := if String.eqb filename "" then ("file_" ++ stamp)%string else filename in
    if 100 <? String.length filename then take 100 filename else filename.

(** [s[:k]] for an integer [k], which counts from the end when negative *)
Definition slice_to (k : Z) (s : string) : string :=
  if (k <? 0)%Z
  then take (Z.to_nat (Z.of_nat (String.length s) + k)) s
  else take (Z.to_nat k) s.

(** [truncate_text] *)
Definition truncate_text (text : string) (max_length : Z) : string :=
  if String.eqb text "" then ""
  else if (Z.of_nat (String.length text) <=? max_length)%Z then text
       else (slice_to (max_length - 3) text ++ "...")%string.

End Utils.

(** ** [app.py]: the dates that are stored *)

Module App.

Section ParseDate.

(** [datetime.strptime(s, format).date()], with [None] for its ValueError *)
Variable Date : Type.
Variable strptime : string -> string -> option Date.

(** [_parse_date]; the argument is [None] or a string *)
Definition _parse_date (date_string : option string) : option Date :=
  match date_string with
  | None => None
  | Some s =>
      if String.eqb s "" then None
      else if contains "-" s && (String.length s =? 10) then strptime s "%Y-%m-%d"
      else if contains "/" s && (String.length s =? 10) then strptime s "%d/%m/%Y"
      else None
  end.

End ParseDate.

End App.

(** ** Sessions in the command log *)

(** the two commands that open and close a browser session *)
Definition session_event {H E : Type} (ev : Event H E) : bool :=
  match ev with
  | EvStart _ | EvQuit _ => true
  | _ => false
  end.

(** the calls of [webdriver.Chrome] in a stretch of the log *)
Definition start_calls {H E : Type} (evs : list (Event H E)) : nat :=
  List.length (filter (fun ev => match ev with EvStart _ => true | _ => false end) evs).

(** [st'] comes from [st] with [self.driver] as it was and by commands
    that all satisfy [P] *)
Definition appends {env : Env} (P : Event (H env) (E env) -> Prop)
           (st st' : State env) : Prop :=
  driver st' = driver st /\
  exists evs, log st' = log st ++ evs /\ Forall P evs.

(** a method that, however it ends, keeps [self.driver] and sends only
    commands that satisfy [P] *)
Definition only {env : Env} {A : Type} (P : Event (H env) (E env) -> Prop)
           (m : M env A) : Prop :=
  forall st, appends P st (snd (m st)).

(** neither a start nor a quit *)
Definition quiet {H E : Type} (ev : Event H E) : Prop := session_event ev = false.

(** a method that leaves the session alone, however it ends *)
Definition keeps_session {env : Env} {A : Type} (m : M env A) : Prop :=
  only quiet m.

(** what one turn of the retry loop adds to the log: a call of Chrome that
    fails; a session that comes up and whose first script raises; or a
    session that comes up, is used, and is quit, with the pause of five
    seconds behind it when that turn ended in an exception *)
Definition turn_shape {H E : Type} (evs : list (Event H E)) : Prop :=
  evs = [EvStart None] \/
  (exists h, evs = [EvStart (Some h); EvScript h stealth_script []]) \/
  (exists h used pause,
      evs = [EvStart (Some h); EvScript h stealth_script []] ++ used ++ [EvQuit h] ++ pause /\
      Forall quiet used /\ (pause = [] \/ pause = [EvSleep 5])).

(** a method that never raises *)
Definition never_raises {env : Env} {A : Type} (m : M env A) : Prop :=
  forall st, exists a, fst (m st) = inr a.




(** * Properties *)

(** ** The model at work *)

Example upper_ex : upper "John Doe vs. State" = "JOHN DOE VS. STATE".
Proof. reflexivity. Qed.

Example strip_ex : strip "  a b  " = "a b".
Proof. reflexivity. Qed.

Example split_ex : split "A VS. B VS. C" "VS." = ["A "; " B "; " C"].
Proof. reflexivity. Qed.

Example findall_dates_ex :
  Regex.findall_dates "a 15/03/2023, 20/06/2023 1/2/2020" = ["15/03/2023"; "20/06/2023"].
Proof. reflexivity. Qed.

Example findall_span_ex :
  Regex.findall_span
    "<p><span id='c'>4821</span><span>12</span><span>1234567</span></p>" = ["4821"].
Proof. reflexivity. Qed.

(** the end-to-end scenario: the case page is scraped at the first attempt
    and the session is quit *)
Example scrape_case_ex :
  let run := scrape_case_data Fixture.court default_config "Civil Appeal" "1234" "2023"
               (Fixture.fresh (Fixture.site Fixture.case_html)) in
  match fst run with
  | inr (Success d) =>
      Some (plaintiff d, defendant d, filing_date d, next_hearing d,
            map pdf_url (orders d))
  | _ => None
  end = Some ("JOHN DOE", "STATE OF DELHI", Some "2023-03-15", Some "2023-06-20",
              ["https://delhihighcourt.nic.in/orders/1234.pdf"]) /\
  driver (snd run) = None /\
  last (log (snd run)) (EvSleep 0) = EvQuit 0.
Proof. vm_compute. repeat split. Qed.

(** ** Text *)

Section TextFacts.

Lemma append_empty_r (s : string) : (s ++ "")%string = s.
Proof. induction s as [|c s IH]; simpl; [reflexivity | now rewrite IH]. Qed.

Lemma append_assoc (a b c : string) : ((a ++ b) ++ c)%string = (a ++ (b ++ c))%string.
Proof. induction a as [|x a IH]; simpl; [reflexivity | now rewrite IH]. Qed.

Lemma append_char (cur : string) (c : ascii) (s : string) :
  ((cur ++ String c "") ++ s)%string = (cur ++ String c s)%string.
Proof. now rewrite append_assoc. Qed.


Lemma drop_empty (n : nat) : drop n "" = "".
Proof. now destruct n. Qed.

Lemma drop_append (p r : string) : drop (String.length p) (p ++ r) = r.
Proof. induction p as [|c p IH]; simpl; [reflexivity | exact IH]. Qed.

Lemma take_append (p r : string) : take (String.length p) (p ++ r) = p.
Proof. induction p as [|c p IH]; simpl; [now destruct r | now rewrite IH]. Qed.

Lemma prefix_split (p s : string) :
  String.prefix p s = true -> s = (p ++ drop (String.length p) s)%string.
Proof.
  revert s; induction p as [|a p IH]; intros s Hp; simpl.
  - reflexivity.
  - destruct s as [|b s]; simpl in Hp; [discriminate|].
    destruct (ascii_dec a b) as [->|]; [|discriminate].
    simpl. f_equal. now apply IH.
Qed.

Lemma prefix_append (p r : string) : String.prefix p (p ++ r) = true.
Proof.
  induction p as [|a p IH]; simpl; [now destruct r|].
  destruct (ascii_dec a a); [exact IH | congruence].
Qed.

Lemma prefix_of_empty (p : string) : p <> "" -> String.prefix p "" = false.
Proof. destruct p; [congruence | reflexivity]. Qed.

Lemma contains_step (sub : string) (c : ascii) (s : string) :
  contains sub (String c s) = String.prefix sub (String c s) || contains sub s.
Proof. reflexivity. Qed.

(** [sub in s] holds exactly when [sub] starts at some position of [s] *)
Lemma contains_iff (sub s : string) :
  contains sub s = true <-> exists j, String.prefix sub (drop j s) = true.
Proof.
  induction s as [|c s IH].
  - simpl. rewrite orb_false_r. split.
    + intros Hp. now exists 0.
    + intros [j Hj]. now rewrite drop_empty in Hj.
  - rewrite contains_step, orb_true_iff, IH. split.
    + intros [Hp | [j Hj]]; [now exists 0 | now exists (S j)].
    + intros [[|j] Hj]; [now left | right; now exists j].
Qed.

Lemma contains_app_r (sub a b : string) :
  contains sub b = true -> contains sub (a ++ b) = true.
Proof.
  intros Hb. induction a as [|c a IH]; simpl; [exact Hb|].
  fold (contains sub (a ++ b)). rewrite IH. apply orb_true_r.
Qed.

End TextFacts.

(** ** [str.split]: the first piece ends at the first separator *)

Section SplitFacts.

Variable sep : string.
Hypothesis sep_nonempty : sep <> "".

Lemma split_go_cons (cur : string) (c : ascii) (s : string) :
  split_go sep 0 cur (String c s) =
  if String.prefix sep (String c s)
  then cur :: split_go sep (String.length sep - 1) "" s
  else split_go sep 0 (cur ++ String c "") s.
Proof. reflexivity. Qed.

Lemma split_go_skip (s : string) :
  forall k cur, split_go sep k cur s = split_go sep 0 cur (drop k s).
Proof.
  induction s as [|c s IH]; intros k cur.
  - now rewrite drop_empty.
  - destruct k as [|k]; [reflexivity|]. simpl drop. simpl split_go at 1. apply IH.
Qed.

Lemma split_go_absent (s : string) :
  forall cur, contains sep s = false -> split_go sep 0 cur s = [(cur ++ s)%string].
Proof.
  induction s as [|c s IH]; intros cur Hc.
  - simpl. now rewrite append_empty_r.
  - rewrite contains_step in Hc. apply orb_false_iff in Hc as [Hp Hs].
    rewrite split_go_cons, Hp, (IH _ Hs). now rewrite append_char.
Qed.

Lemma split_go_present (s : string) :
  forall cur, contains sep s = true ->
  exists p r, cut_at_first sep s p r /\
              split_go sep 0 cur s = (cur ++ p)%string :: split_go sep 0 "" r.
Proof.
  induction s as [|c s IH]; intros cur Hc.
  - unfold contains in Hc. rewrite orb_false_r, prefix_of_empty in Hc by assumption.
    discriminate.
  - rewrite contains_step in Hc.
    destruct (String.prefix sep (String c s)) eqn:Hp.
    + exists "", (drop (String.length sep) (String c s)). split.
      * split; [now apply prefix_split | simpl; intros j Hj; lia].
      * rewrite split_go_cons, Hp, append_empty_r. f_equal.
        rewrite (split_go_skip s). f_equal.
        destruct sep as [|a t]; [congruence|]. simpl. now rewrite Nat.sub_0_r.
    + simpl in Hc. destruct (IH (cur ++ String c "")%string Hc) as (p & r & [Hs Hfirst] & Hgo).
      exists (String c p), r. split.
      * split; [simpl; now rewrite <- Hs|].
        intros [|j] Hj; [exact Hp|]. simpl in Hj. simpl drop. apply Hfirst. lia.
      * rewrite split_go_cons, Hp, Hgo. now rewrite append_char.
Qed.

(** with a separator in the text, [split] gives at least two pieces: the
    text before the first separator, and the text from there to the next
    separator or to the end *)
Lemma split_two_pieces (s : string) :
  contains sep s = true ->
  exists p r p1 more,
    cut_at_first sep s p r /\ split s sep = p :: p1 :: more /\
    ((contains sep r = false /\ p1 = r) \/
     (exists r1, cut_at_first sep r p1 r1)).
Proof.
  intros Hc. unfold split.
  destruct (split_go_present s "" Hc) as (p & r & Hcut & Hgo).
  simpl in Hgo. rewrite Hgo.
  destruct (contains sep r) eqn:Hr.
  - destruct (split_go_present r "" Hr) as (p1 & r1 & Hcut1 & Hgo1).
    simpl in Hgo1. exists p, r, p1, (split_go sep 0 "" r1). rewrite Hgo1.
    split; [exact Hcut|]. split; [reflexivity|]. right. now exists r1.
  - exists p, r, r, []. rewrite (split_go_absent r "" Hr). simpl.
    split; [exact Hcut|]. split; [reflexivity|]. now left.
Qed.

End SplitFacts.

(** ** Removal of duplicates *)

Section UniqueFacts.

Let step (unique_pdfs : list string) (url : string) : list string :=
  if existsb (String.eqb url) unique_pdfs then unique_pdfs else unique_pdfs ++ [url].

Lemma existsb_eqb_In (x : string) (l : list string) :
  existsb (String.eqb x) l = true <-> In x l.
Proof.
  rewrite existsb_exists. split.
  - intros (y & Hy & He). apply String.eqb_eq in He. now subst.
  - intros Hx. exists x. split; [exact Hx | apply String.eqb_refl].
Qed.

Lemma fold_step_first_seen (l : list string) :
  forall acc, fold_left step l acc = acc ++ first_seen acc l.
Proof.
  induction l as [|x r IH]; intros acc; simpl.
  - now rewrite app_nil_r.
  - unfold step at 2. destruct (existsb (String.eqb x) acc).
    + apply IH.
    + rewrite IH, <- app_assoc. reflexivity.
Qed.

Lemma unique_first_seen (l : list string) : unique l = first_seen [] l.
Proof. exact (fold_step_first_seen l []). Qed.

Lemma first_seen_In (l : list string) :
  forall seen u, In u (first_seen seen l) <-> (In u l /\ ~ In u seen).
Proof.
  induction l as [|x r IH]; intros seen u; simpl.
  - tauto.
  - destruct (existsb (String.eqb x) seen) eqn:Hx.
    + apply existsb_eqb_In in Hx. rewrite IH. split.
      * intros [Hr Hs]. tauto.
      * intros [[-> | Hr] Hs]; [contradiction | tauto].
    + assert (Hn : ~ In x seen).
      { intros Hin. apply existsb_eqb_In in Hin. congruence. }
      simpl. rewrite IH, in_app_iff. simpl. split.
      * intros [-> | [Hr Hs]]; [tauto|]. split; [tauto|]. intros Hs'. apply Hs. now left.
      * intros [[-> | Hr] Hs]; [now left|].
        destruct (string_dec x u) as [->|Hne]; [now left|].
        right. split; [exact Hr|]. intros [Hs' | [He | []]]; [tauto | congruence].
Qed.

Lemma first_seen_NoDup (l : list string) : forall seen, NoDup (first_seen seen l).
Proof.
  induction l as [|x r IH]; intros seen; simpl; [constructor|].
  destruct (existsb (String.eqb x) seen); [apply IH|].
  constructor; [|apply IH].
  rewrite first_seen_In, in_app_iff. simpl. tauto.
Qed.


End UniqueFacts.

(** ** Dates *)

Section DateFacts.
Import Regex.

Lemma prefix_empty (s : string) : String.prefix "" s = true.
Proof. now destruct s. Qed.

Lemma prefix_cons (a b : ascii) (p s : string) :
  String.prefix (String a p) (String b s) =
  if ascii_dec a b then String.prefix p s else false.
Proof. simpl. now destruct (ascii_dec a b). Qed.

Lemma split_slash_digit (c : ascii) (cur s : string) :
  is_digit c = true ->
  split_go "/" 0 cur (String c s) = split_go "/" 0 (cur ++ String c "") s.
Proof.
  intros Hd. rewrite split_go_cons, prefix_cons.
  destruct (ascii_dec "/" c) as [<-|]; [discriminate Hd | reflexivity].
Qed.

Lemma split_slash_slash (cur s : string) :
  split_go "/" 0 cur (String "/" s) = cur :: split_go "/" 0 "" s.
Proof.
  rewrite split_go_cons, prefix_cons.
  destruct (ascii_dec "/" "/"); [|congruence]. now rewrite prefix_empty.
Qed.

(** a match of the pattern is ten characters long and shaped like a date *)
Lemma date_at_inv (s d : string) :
  date_at s = Some d ->
  exists d1 d2 m1 m2 y1 y2 y3 y4,
    d = String d1 (String d2 (String "/" (String m1 (String m2 (String "/"
          (String y1 (String y2 (String y3 (String y4 ""))))))))) /\
    s = (d ++ drop 10 s)%string /\
    is_digit d1 = true /\ is_digit d2 = true /\ is_digit m1 = true /\
    is_digit m2 = true /\ is_digit y1 = true /\ is_digit y2 = true /\
    is_digit y3 = true /\ is_digit y4 = true.
Proof.
  unfold date_at.
  do 10 (destruct s as [|? s]; [discriminate|]).
  match goal with |- (if ?c then _ else _) = _ -> _ => destruct c eqn:Hc end;
    [|discriminate].
  intros [= <-].
  repeat (apply andb_true_iff in Hc as [Hc ?]).
  repeat match goal with H : Ascii.eqb _ _ = true |- _ =>
    apply Ascii.eqb_eq in H; subst end.
  do 8 eexists. split; [reflexivity|]. split; [reflexivity|].
  unfold is_digit at 1. rewrite Hc. simpl. tauto.
Qed.

Lemma date_at_is_date_text (s d : string) : date_at s = Some d -> is_date_text d.
Proof.
  intros Hs. destruct (date_at_inv s d Hs)
    as (d1 & d2 & m1 & m2 & y1 & y2 & y3 & y4 & -> & _ & H1 & H2 & H3 & H4 & H5 & H6 & H7 & H8).
  unfold is_date_text, date_at. rewrite H1, H2, H3, H4, H5, H6, H7, H8. reflexivity.
Qed.

Lemma convert_date_iso (d : string) :
  is_date_text d -> convert_date d = inr (iso_date d).
Proof.
  intros Hd. destruct (date_at_inv d d Hd)
    as (d1 & d2 & m1 & m2 & y1 & y2 & y3 & y4 & -> & _ & H1 & H2 & H3 & H4 & H5 & H6 & H7 & H8).
  unfold convert_date, split.
  rewrite !split_slash_digit, split_slash_slash by assumption.
  rewrite !split_slash_digit, split_slash_slash by assumption.
  rewrite !split_slash_digit by assumption.
  reflexivity.
Qed.

(** what [findall] returns are date texts cut out of [s] *)
Lemma findall_dates_go_sound (s : string) :
  forall k, Forall (fun d => is_date_text d /\ exists a b, s = (a ++ d ++ b)%string)
                   (findall_dates_go k s).
Proof.
  induction s as [|c s IH]; intros k; [constructor|].
  assert (Hshift : forall l,
             Forall (fun d => is_date_text d /\ exists a b, s = (a ++ d ++ b)%string) l ->
             Forall (fun d => is_date_text d /\ exists a b, String c s = (a ++ d ++ b)%string) l).
  { intros l Hl. eapply Forall_impl; [|exact Hl].
    intros d [Hd (a & b & ->)]. split; [exact Hd|]. now exists (String c a), b. }
  destruct k as [|k]; [|apply Hshift, IH].
  change (findall_dates_go 0 (String c s))
    with (match date_at (String c s) with
          | Some d => d :: findall_dates_go 9 s
          | None => findall_dates_go 0 s
          end).
  destruct (date_at (String c s)) as [d|] eqn:Hd; [|apply Hshift, IH].
  constructor; [|apply Hshift, IH].
  split; [eapply date_at_is_date_text; eassumption|].
  destruct (date_at_inv _ _ Hd) as (? & ? & ? & ? & ? & ? & ? & ? & _ & Hs & _).
  now exists "", (drop 10 (String c s)).
Qed.


Lemma findall_dates_go_skip (s : string) :
  forall k, findall_dates_go k s = findall_dates_go 0 (drop k s).
Proof.
  induction s as [|c s IH]; intros k.
  - now rewrite drop_empty.
  - destruct k as [|k]; [reflexivity|]. simpl drop. cbn [findall_dates_go]. apply IH.
Qed.



(** the two fields are the first two matches, in ISO form *)
Lemma extract_dates_by_position (listing_text : string) :
  extract_dates listing_text =
    (option_map iso_date (nth_error (findall_dates listing_text) 0),
     option_map iso_date (nth_error (findall_dates listing_text) 1)).
Proof.
  unfold extract_dates.
  pose proof (findall_dates_go_sound listing_text 0) as Hsound.
  fold (findall_dates listing_text) in Hsound.
  destruct (findall_dates listing_text) as [|d0 more]; [reflexivity|].
  inversion Hsound as [|? ? [Hd0 _] Hmore]; subst.
  rewrite (convert_date_iso d0 Hd0).
  destruct more as [|d1 more']; [reflexivity|].
  inversion Hmore as [|? ? [Hd1 _] _]; subst.
  now rewrite (convert_date_iso d1 Hd1).
Qed.

End DateFacts.

(** ** The parser *)

Section ParserFacts.

Variable env : Env.
Variable self : Config.

Lemma split_parties_cases (t : string) :
  exists pl df, split_parties t = inr (pl, df) /\
    if contains "VS." (upper t)
    then exists p r, cut_at_first "VS." (upper t) p r /\ pl = strip p /\
           ((contains "VS." r = false /\ df = strip r) \/
            (exists p1 r1, cut_at_first "VS." r p1 r1 /\ df = strip p1))
    else pl = t /\ df = "N/A".
Proof.
  unfold split_parties. destruct (contains "VS." (upper t)) eqn:Hc.
  - destruct (split_two_pieces "VS." ltac:(discriminate) (upper t) Hc)
      as (p & r & p1 & more & Hcut & Hsplit & Hp1).
    rewrite Hsplit. exists (strip p), (strip p1). split; [reflexivity|].
    exists p, r. split; [exact Hcut|]. split; [reflexivity|].
    destruct Hp1 as [[Hr ->] | [r1 Hcut1]]; [left; now split | right; now exists p1, r1].
  - exists t, "N/A". now split.
Qed.

(** only for no [href] at all does the joining give the empty list *)
Lemma resolve_all_nil (hrefs : list string) :
  resolve_all env self hrefs = inr [] -> hrefs = [].
Proof.
  destruct hrefs as [|href rest]; [reflexivity|]. simpl.
  destruct (urljoin env (base_url self) href); [discriminate|].
  destruct (resolve_all env self rest); discriminate.
Qed.

(** the three sources of the PDF extraction, and its [except] clause *)
Lemma extract_pdfs_value (soup : Soup.Node) (cols : list Soup.Node) (st : State env) :
  _extract_pdfs_enhanced env self soup cols st =
    match resolve_all env self (flat_map pdf_hrefs cols) with
    | inl _ => (inr [], st)
    | inr (u :: us) => (inr (unique (u :: us)), st)
    | inr [] =>
        match _check_orders_page env self st with
        | (inl _, st1) => (inr [], st1)
        | (inr (u :: us), st1) => (inr (unique (u :: us)), st1)
        | (inr [], st1) =>
            match resolve_all env self (pdf_hrefs soup) with
            | inl _ => (inr [], st1)
            | inr urls => (inr (unique urls), st1)
            end
        end
    end.
Proof.
  unfold _extract_pdfs_enhanced, try_except, bind, ret, lift_res.
  destruct (resolve_all env self (flat_map pdf_hrefs cols)) as [e|[|u us]];
    try reflexivity.
  destruct (_check_orders_page env self st) as [[e|[|u us]] st1]; try reflexivity.
  now destruct (resolve_all env self (pdf_hrefs soup)).
Qed.

(** the PDF extraction never raises, and what it returns went through
    the removal of duplicates *)
Lemma extract_pdfs_returns (soup : Soup.Node) (cols : list Soup.Node) (st : State env) :
  exists raw st',
    _extract_pdfs_enhanced env self soup cols st = (inr (unique raw), st').
Proof.
  rewrite extract_pdfs_value.
  destruct (resolve_all env self (flat_map pdf_hrefs cols)) as [e|[|u us]].
  - now exists [], st.
  - destruct (_check_orders_page env self st) as [[e|[|u us]] st1].
    + now exists [], st1.
    + destruct (resolve_all env self (pdf_hrefs soup)) as [e|urls];
        [now exists [], st1 | now exists urls, st1].
    + now exists (u :: us), st1.
  - now exists (u :: us), st.
Qed.

(** once the first data row is read, the parse succeeds with these fields *)
Lemma parse_data_row (html : string) (cols : list Soup.Node) (st st' : State env)
      (urls : list string) :
  data_row_cols env html = Some cols ->
  _extract_pdfs_enhanced env self (BeautifulSoup env html) cols st = (inr urls, st') ->
  exists pl df,
    split_parties (col_text cols 2) = inr (pl, df) /\
    _parse_case_results_enhanced env self html st =
      (inr (Success {| plaintiff := pl;
                       defendant := df;
                       filing_date := fst (extract_dates (col_text cols 3));
                       next_hearing := snd (extract_dates (col_text cols 3));
                       status := "Active";
                       orders := map (fun url => mkOrder (fst (extract_dates (col_text cols 3)))
                                                         "Order" url) urls;
                       raw_html := html |}), st').
Proof.
  unfold data_row_cols, has_no_record_phrase, _parse_case_results_enhanced.
  destruct (existsb _ no_record_phrases); [discriminate|].
  destruct (find_table table_selectors (BeautifulSoup env html)) as [tbl|]; [|discriminate].
  destruct (Soup.find_all "tr" tbl) as [|r0 [|row rest]]; try discriminate.
  intros [= <-] Hx.
  destruct (split_parties_cases (col_text (Soup.find_all "td" row) 2)) as (pl & df & Hp & _).
  exists pl, df. split; [exact Hp|].
  unfold try_except, bind, lift_res, ret. rewrite Hp, Hx. reflexivity.
Qed.

(** the parse of a page with a data row always succeeds *)
Lemma parse_data_row_success (html : string) (cols : list Soup.Node) (st : State env) :
  data_row_cols env html = Some cols ->
  exists d st',
    _parse_case_results_enhanced env self html st = (inr (Success d), st') /\
    split_parties (col_text cols 2) = inr (plaintiff d, defendant d) /\
    (filing_date d, next_hearing d) = extract_dates (col_text cols 3) /\
    exists raw, map pdf_url (orders d) = unique raw.
Proof.
  intros Hcols.
  destruct (extract_pdfs_returns (BeautifulSoup env html) cols st) as (raw & st' & Hx).
  destruct (parse_data_row html cols st st' _ Hcols Hx) as (pl & df & Hp & Hparse).
  eexists _, st'. split; [exact Hparse|]. simpl. split; [exact Hp|].
  split; [now destruct (extract_dates (col_text cols 3))|].
  exists raw. rewrite map_map. simpl. apply map_id.
Qed.

Lemma find_element_no_session (selector : string) (st : State env) :
  driver st = None ->
  do_find_element env selector st = (inl attribute_error, st).
Proof. intros Hd. unfold do_find_element, bind, the_driver. now rewrite Hd. Qed.

(** without a session the orders page gives nothing and nothing happens *)
Lemma orders_loop_no_session (selectors : list string) :
  forall (pdf_urls : list string) (st : State env),
    driver st = None ->
    orders_loop env self selectors pdf_urls st = (inr pdf_urls, st).
Proof.
  induction selectors as [|selector rest IH]; intros pdf_urls st Hd; [reflexivity|].
  cbn [orders_loop]. unfold bind at 1. unfold attempt_. unfold bind at 1.
  rewrite (find_element_no_session selector st Hd). now apply IH.
Qed.

(** anchors in the cells of the row settle the links, and the session is
    left alone: the links are the joined addresses, or none at all when a
    join raised *)
Lemma extract_pdfs_from_row (soup : Soup.Node) (cols : list Soup.Node) (st : State env) :
  flat_map pdf_hrefs cols <> [] ->
  _extract_pdfs_enhanced env self soup cols st =
    (inr (match resolve_all env self (flat_map pdf_hrefs cols) with
          | inr urls => unique urls
          | inl _ => []
          end), st).
Proof.
  intros Hne. rewrite extract_pdfs_value.
  destruct (resolve_all env self (flat_map pdf_hrefs cols)) as [e|[|u us]] eqn:Hr;
    try reflexivity.
  now apply resolve_all_nil in Hr.
Qed.

(** with no anchor in the row and no session, the page scan settles them *)
Lemma extract_pdfs_no_session (soup : Soup.Node) (cols : list Soup.Node) (st : State env) :
  flat_map pdf_hrefs cols = [] ->
  driver st = None ->
  _extract_pdfs_enhanced env self soup cols st =
    (inr (match resolve_all env self (pdf_hrefs soup) with
          | inr urls => unique urls
          | inl _ => []
          end), st).
Proof.
  intros Hnil Hd. rewrite extract_pdfs_value, Hnil. simpl.
  unfold _check_orders_page.
  rewrite (orders_loop_no_session orders_selectors [] st Hd).
  now destruct (resolve_all env self (pdf_hrefs soup)).
Qed.

(** before that, the parse fails with a message that the markup alone
    decides, and touches nothing *)
Lemma parse_early_failure (html : string) :
  data_row_cols env html = None ->
  exists msg, forall st : State env,
    _parse_case_results_enhanced env self html st = (inr (Failure msg), st).
Proof.
  unfold data_row_cols, has_no_record_phrase, _parse_case_results_enhanced.
  destruct (existsb _ no_record_phrases); [intros _; eexists; reflexivity|].
  destruct (find_table table_selectors (BeautifulSoup env html)) as [tbl|];
    [|intros _; eexists; reflexivity].
  destruct (Soup.find_all "tr" tbl) as [|r0 [|row rest]];
    try discriminate; intros _; eexists; reflexivity.
Qed.

End ParserFacts.

(** ** What the specification says about the parser *)

(** C1, as stated, fails: the parser asks the browser session for the
    orders page when the data row holds no PDF link, and following the
    Orders link changes the session. On the court fixture the same markup,
    parsed twice in a row, gives one order link the first time and none
    the second time. *)
Lemma parse_twice_differs :
  let st0 := Fixture.live (Fixture.site_with_orders Fixture.short_html
                             ["https://delhihighcourt.nic.in/orders/1.pdf"]) in
  let first := _parse_case_results_enhanced Fixture.court default_config
                 Fixture.short_html st0 in
  let second := _parse_case_results_enhanced Fixture.court default_config
                  Fixture.short_html (snd first) in
  let links := fun r : res ScrapeResult =>
                 match r with
                 | inr (Success d) => Some (map pdf_url (orders d))
                 | _ => None
                 end in
  needs_session Fixture.court Fixture.short_html = true /\
  links (fst first) = Some ["https://delhihighcourt.nic.in/orders/1.pdf"] /\
  links (fst second) = Some [] /\
  fst first <> fst second.
Proof. repeat (split; [reflexivity|]). vm_compute. discriminate. Qed.

(** C1 (amended): the parse is a function of the markup alone whenever the
    parser does not have to ask the session for the orders page (a
    no-record phrase, no table, fewer than two rows, or a PDF link in the
    cells of the first data row), and also whenever no session is live: two
    invocations on the same markup then yield identical results, from
    whatever states they start, and leave the state as it was. *)
Theorem parse_deterministic_without_orders_page
        (env : Env) (self : Config) (html : string) (st st' : State env) :
  needs_session env html = false \/ (driver st = None /\ driver st' = None) ->
  _parse_case_results_enhanced env self html st =
    (fst (_parse_case_results_enhanced env self html st'), st).
Proof.
  intros Hcase.
  destruct (data_row_cols env html) as [cols|] eqn:Hcols.
  - assert (Hx : exists urls,
               _extract_pdfs_enhanced env self (BeautifulSoup env html) cols st = (inr urls, st) /\
               _extract_pdfs_enhanced env self (BeautifulSoup env html) cols st' = (inr urls, st')).
    { unfold needs_session in Hcase. rewrite Hcols in Hcase.
      destruct (flat_map pdf_hrefs cols) as [|u us] eqn:Hm.
      - destruct Hcase as [Hn | [Hd Hd']]; [discriminate|].
        eexists. split; now apply extract_pdfs_no_session.
      - eexists. split; apply extract_pdfs_from_row; congruence. }
    destruct Hx as (urls & Hst & Hst').
    destruct (parse_data_row env self html cols st st urls Hcols Hst) as (pl & df & Hp & ->).
    destruct (parse_data_row env self html cols st' st' urls Hcols Hst') as (pl' & df' & Hp' & ->).
    rewrite Hp in Hp'. injection Hp' as <- <-. reflexivity.
  - destruct (parse_early_failure env self html Hcols) as (msg & Hmsg).
    now rewrite !Hmsg.
Qed.

Lemma parse_deterministic_without_orders_page_witness :
  _parse_case_results_enhanced Fixture.court default_config Fixture.case_html
    (Fixture.live (Fixture.site Fixture.case_html)) =
  (fst (_parse_case_results_enhanced Fixture.court default_config Fixture.case_html
          (Fixture.fresh Fixture.no_browser)),
   Fixture.live (Fixture.site Fixture.case_html)).
Proof.
  apply (parse_deterministic_without_orders_page Fixture.court default_config
           Fixture.case_html). left. reflexivity.
Defined.






(** C10, as stated, fails: a page whose table has two rows and whose data
    row has a single cell reading "No record found" is reported as a
    failure, since the phrase is looked for before the table is read. *)
Lemma short_row_with_phrase_fails :
  exists tbl row,
    find_table table_selectors (BeautifulSoup Fixture.court Fixture.empty_html) = Some tbl /\
    2 <= List.length (Soup.find_all "tr" tbl) /\
    nth_error (Soup.find_all "tr" tbl) 1 = Some row /\
    List.length (Soup.find_all "td" row) < 3 /\
    fst (_parse_case_results_enhanced Fixture.court default_config Fixture.empty_html
           (Fixture.live (Fixture.site Fixture.empty_html))) =
      inr (Failure "No record found for the specified case.").
Proof.
  eexists _, _. split; [vm_compute; reflexivity|].
  split; [vm_compute; lia|]. split; [vm_compute; reflexivity|].
  split; [vm_compute; lia | reflexivity].
Qed.

(** C10 (amended): for every markup that contains none of the no-record
    phrases, whose results table has at least two rows and whose first
    data row has fewer than three columns, the parse returns Success with
    the empty plaintiff, the defendant "N/A" and both dates unset. *)
Theorem short_row_parses
        (env : Env) (self : Config) (html : string) (tbl row : Soup.Node)
        (st : State env) :
  has_no_record_phrase html = false ->
  find_table table_selectors (BeautifulSoup env html) = Some tbl ->
  nth_error (Soup.find_all "tr" tbl) 1 = Some row ->
  List.length (Soup.find_all "td" row) < 3 ->
  exists d st',
    _parse_case_results_enhanced env self html st = (inr (Success d), st') /\
    plaintiff d = "" /\ defendant d = "N/A" /\
    filing_date d = None /\ next_hearing d = None.
Proof.
  intros Hphrase Htbl Hrow Hlen.
  assert (Hcols : data_row_cols env html = Some (Soup.find_all "td" row)).
  { unfold data_row_cols. rewrite Hphrase, Htbl.
    destruct (Soup.find_all "tr" tbl) as [|r0 [|r1 rest]]; try discriminate.
    now injection Hrow as ->. }
  destruct (parse_data_row_success env self html _ st Hcols)
    as (d & st' & Hparse & Hp & Hd & _).
  assert (Hnth : forall i, 2 <= i -> col_text (Soup.find_all "td" row) i = "").
  { intros i Hi. unfold col_text.
    destruct (nth_error (Soup.find_all "td" row) i) eqn:Hn; [|reflexivity].
    assert (Hsome : nth_error (Soup.find_all "td" row) i <> None) by congruence.
    apply nth_error_Some in Hsome. lia. }
  rewrite Hnth in Hp, Hd by lia.
  exists d, st'. split; [exact Hparse|].
  injection Hp as <- <-. injection Hd as -> ->. now repeat split.
Qed.

Lemma short_row_parses_witness :
  exists d st',
    _parse_case_results_enhanced Fixture.court default_config Fixture.short_html
      (Fixture.live (Fixture.site Fixture.short_html)) = (inr (Success d), st') /\
    plaintiff d = "" /\ defendant d = "N/A" /\
    filing_date d = None /\ next_hearing d = None.
Proof.
  apply (short_row_parses Fixture.court default_config Fixture.short_html
           (Soup.Tag "table" []
              [Soup.Tag "tr" [] [Soup.Tag "th" [] [Soup.Text "Case"]];
               Soup.Tag "tr" [] [Soup.Tag "td" [] [Soup.Text "Civil Appeal 1/2020"]]])
           (Soup.Tag "tr" [] [Soup.Tag "td" [] [Soup.Text "Civil Appeal 1/2020"]])).
  - reflexivity.
  - reflexivity.
  - reflexivity.
  - simpl. lia.
Defined.

(** ** The session and the retry loop *)

Section LoopFacts.

Variable env : Env.
Variable self : Config.
Variables case_type case_number filing_year : string.

(** [_close_driver] with no session: nothing happens *)
Lemma close_driver_idle (st : State env) :
  driver st = None -> _close_driver env st = (inr tt, st).
Proof. intros Hd. unfold _close_driver. now rewrite Hd. Qed.

(** [_close_driver] with a session: it is quit, whether or not [quit]
    raises, and the handle is cleared *)
Lemma close_driver_quits (st : State env) (h : H env) :
  driver st = Some h ->
  _close_driver env st =
    (inr tt, {| world := snd (quit env h (world st));
                driver := None;
                log := log st ++ [EvQuit h] |}).
Proof.
  intros Hd. unfold _close_driver, try_except, bind, command, set_driver, ret.
  rewrite Hd. now destruct (quit env h (world st)) as [[e|[]] w'].
Qed.

Lemma close_driver_returns (st : State env) :
  exists st', _close_driver env st = (inr tt, st') /\ driver st' = None.
Proof.
  destruct (driver st) as [h|] eqn:Hd.
  - eexists. split; [apply close_driver_quits; exact Hd | reflexivity].
  - exists st. split; [now apply close_driver_idle | exact Hd].
Qed.

(** a second [_close_driver] changes nothing *)
Lemma close_driver_idempotent (st : State env) :
  _close_driver env (snd (_close_driver env st)) = (inr tt, snd (_close_driver env st)).
Proof.
  destruct (close_driver_returns st) as (st' & -> & Hd). simpl.
  now apply close_driver_idle.
Qed.

(** once [_setup_driver] has returned True, the turn of the loop ends
    with the handle cleared *)
Lemma loop_body_releases (attempt : Z) (st st1 : State env) :
  _setup_driver env st = (inr true, st1) ->
  driver (snd (loop_body env self case_type case_number filing_year attempt st)) = None.
Proof.
  intros Hs. unfold loop_body. unfold bind at 1. rewrite Hs.
  change (negb true) with false. cbv beta iota.
  unfold bind at 1. unfold try_finally.
  match goal with |- context [try_except env ?m ?k st1] =>
    destruct (try_except env m k st1) as [r st2] end.
  destruct (close_driver_returns st2) as (st3 & -> & Hd).
  destruct r as [e|[| |]]; simpl; try exact Hd.
  destruct (attempt <? max_retries self - 1)%Z; simpl; exact Hd.
Qed.

(** Chrome that does not come up: the turn is left by [continue] at once *)
Lemma loop_body_no_chrome (attempt : Z) (st : State env) (e : Exn) (w' : W env) :
  chrome_start env (world st) = (inl e, w') ->
  loop_body env self case_type case_number filing_year attempt st =
    (inr Continue, {| world := w'; driver := driver st; log := log st ++ [EvStart None] |}).
Proof.
  intros Hc. unfold loop_body, _setup_driver, try_except, start_chrome.
  unfold bind at 1. unfold bind at 1. now rewrite Hc.
Qed.

Lemma for_attempts_no_chrome (down : W env -> Prop) (attempts : list Z) :
  (forall w, down w -> exists e w', chrome_start env w = (inl e, w') /\ down w') ->
  forall st : State env,
  down (world st) ->
  exists st',
    for_attempts env self case_type case_number filing_year attempts st =
      (inr (Failure "All scraping attempts failed"), st') /\
    driver st' = driver st /\
    log st' = log st ++ repeat (EvStart None) (List.length attempts).
Proof.
  intros Hno. induction attempts as [|attempt rest IH]; intros st Hdown.
  - exists st. simpl. now rewrite app_nil_r.
  - destruct (Hno (world st) Hdown) as (e & w' & Hc & Hdown').
    cbn [for_attempts]. unfold bind at 1.
    rewrite (loop_body_no_chrome attempt st e w' Hc).
    destruct (IH {| world := w'; driver := driver st; log := log st ++ [EvStart None] |} Hdown')
      as (st' & Hrun & Hd & Hl).
    exists st'. split; [exact Hrun|]. split; [exact Hd|].
    rewrite Hl. simpl. now rewrite <- app_assoc.
Qed.

Lemma range_length (n : Z) : List.length (range n) = Z.to_nat n.
Proof. unfold range. now rewrite length_map, length_seq. Qed.

Lemma range_last (n : Z) : (0 < n)%Z -> range n = range (n - 1) ++ [(n - 1)%Z].
Proof.
  intros Hn. unfold range.
  replace (Z.to_nat n) with (Z.to_nat (n - 1) + 1) by lia.
  rewrite seq_app, map_app. simpl. do 2 f_equal. lia.
Qed.

Lemma for_attempts_passed_over (before after : list Z) :
  forall st0 st : State env,
    passed_over env self case_type case_number filing_year before st0 st ->
    for_attempts env self case_type case_number filing_year (before ++ after) st0 =
    for_attempts env self case_type case_number filing_year after st.
Proof.
  induction before as [|attempt rest IH]; intros st0 st Hp; simpl in Hp.
  - now subst.
  - destruct Hp as (c & s & Hbody & Hc & Hrest).
    simpl app. cbn [for_attempts]. unfold bind at 1. rewrite Hbody.
    destruct Hc as [-> | ->]; now apply IH.
Qed.

End LoopFacts.

(** ** The CAPTCHA stage *)

Section CaptchaFacts.

Variable env : Env.
Variable st : State env.

(** no element under the CAPTCHA selectors shows a challenge *)
Hypothesis no_challenge_element :
  forall h selector elements element t,
    driver st = Some h ->
    In selector captcha_selectors ->
    find_elements env h selector (world st) = inr elements ->
    In element elements ->
    elem_text env element (world st) = inr t ->
    looks_like_captcha (strip t) = false.

(** the scan of the page source finds no short number in a span *)
Hypothesis no_challenge_in_source :
  forall h source,
    driver st = Some h ->
    page_source env h (world st) = inr source ->
    Regex.findall_span source = [].






End CaptchaFacts.

(** ** What the specification says about the session, the retries and the download *)

(** C2 (code bug): with a Chrome that never comes up, [scrape_case_data]
    returns a failure after exactly [max_retries] calls of the driver
    set-up, but nothing separates them: the log holds the set-up calls and
    no sleep, since [continue] after a failed set-up passes over the
    [time.sleep(5)] placed at the end of the loop body. [down] describes
    the worlds in which Chrome is out of reach. *)
Theorem driver_unavailable_no_backoff
        (env : Env) (self : Config) (case_type case_number filing_year : string)
        (down : W env -> Prop) (st : State env) :
  (forall w, down w -> exists e w', chrome_start env w = (inl e, w') /\ down w') ->
  down (world st) ->
  exists st',
    scrape_case_data env self case_type case_number filing_year st =
      (inr (Failure "All scraping attempts failed"), st') /\
    log st' = log st ++ repeat (EvStart None) (Z.to_nat (max_retries self)).
Proof.
  intros Hno Hdown. unfold scrape_case_data.
  destruct (for_attempts_no_chrome env self case_type case_number filing_year down
              (range (max_retries self)) Hno st Hdown) as (st' & Hrun & _ & Hl).
  exists st'. split; [exact Hrun|]. now rewrite Hl, range_length.
Qed.

Lemma driver_unavailable_no_backoff_witness :
  exists st',
    scrape_case_data Fixture.court default_config "Civil Appeal" "1234" "2023"
      (Fixture.fresh Fixture.no_browser) =
      (inr (Failure "All scraping attempts failed"), st') /\
    log st' = [EvStart None; EvStart None; EvStart None].
Proof.
  apply (driver_unavailable_no_backoff Fixture.court default_config
           "Civil Appeal" "1234" "2023"
           (fun w => Fixture.chrome_ok w = false)
           (Fixture.fresh Fixture.no_browser)).
  - intros w Hw. exists Fixture.no_chrome, w. simpl. rewrite Hw. now split.
  - reflexivity.
Defined.

(** C3 (code bug): when Chrome comes up and the first script raises,
    [_setup_driver] returns False with the session already stored in
    [self.driver]; the turn of the loop is left by [continue] before the
    [try ... finally], so it ends with the session live and no [quit] sent:
    the log holds the start and the script only. *)
Theorem half_started_session_not_released
        (env : Env) (self : Config) (case_type case_number filing_year : string)
        (attempt : Z) (st : State env) (h : H env) (w1 w2 : W env) (e : Exn) :
  chrome_start env (world st) = (inr h, w1) ->
  execute_script env h stealth_script [] w1 = (inl e, w2) ->
  loop_body env self case_type case_number filing_year attempt st =
    (inr Continue,
     {| world := w2;
        driver := Some h;
        log := log st ++ [EvStart (Some h); EvScript h stealth_script []] |}).
Proof.
  intros Hstart Hscript.
  unfold loop_body, _setup_driver, try_except, start_chrome, set_driver,
    do_execute_script, the_driver, command, bind, ret.
  rewrite Hstart. simpl. rewrite Hscript. simpl. now rewrite <- app_assoc.
Qed.

Lemma half_started_session_not_released_witness :
  loop_body Fixture.court default_config "Civil Appeal" "1234" "2023" 0
    (Fixture.fresh Fixture.half_started) =
  (inr Continue,
   mkState (env := Fixture.court)
           (Fixture.started Fixture.half_started)
           (Some 0)
           [EvStart (Some 0); EvScript 0 stealth_script []]).
Proof.
  apply (half_started_session_not_released Fixture.court default_config
           "Civil Appeal" "1234" "2023" 0 (Fixture.fresh Fixture.half_started)
           0 (Fixture.started Fixture.half_started)
           (Fixture.started Fixture.half_started) Fixture.script_error).
  - reflexivity.
  - reflexivity.
Defined.

(** a failure of the parse on the last turn is what the loop returns *)
Lemma final_failure_returned
      (env : Env) (self : Config) (case_type case_number filing_year : string)
      (st0 st s1 s2 s3 s4 s5 s6 : State env) (html : string) (r : ScrapeResult) :
  (0 < max_retries self)%Z ->
  passed_over env self case_type case_number filing_year
              (range (max_retries self - 1)) st0 st ->
  _setup_driver env st = (inr true, s1) ->
  (do_get env (case_search_url self) ;;;
   do_wait env (timeout self) TAG_NAME "body" ;;;
   time_sleep env 3 ;;;
   _fill_search_form_enhanced env self case_type case_number filing_year) s1
    = (inr true, s2) ->
  _handle_captcha_enhanced env s2 = (inr true, s3) ->
  _submit_form env s3 = (inr true, s4) ->
  (time_sleep env (request_delay self) ;;; do_page_source env) s4 = (inr html, s5) ->
  _parse_case_results_enhanced env self html s5 = (inr r, s6) ->
  success r = false ->
  fst (scrape_case_data env self case_type case_number filing_year st0) = inr r.
Proof.
  intros Hpos Hpassed Hsetup Hfill Hcaptcha Hsubmit Hsource Hparse Hfail.
  unfold scrape_case_data. rewrite (range_last _ Hpos).
  rewrite (for_attempts_passed_over env self case_type case_number filing_year
             _ [(max_retries self - 1)%Z] st0 st Hpassed).
  assert (Htry : try_block env self case_type case_number filing_year
                           (max_retries self - 1) s1 = (inr (Return r), s6)).
  { unfold try_block, submit_and_parse, bind in *.
    destruct (do_get env (case_search_url self) s1) as [[e|[]] a1]; [discriminate|].
    destruct (do_wait env (timeout self) TAG_NAME "body" a1) as [[e|?] a2]; [discriminate|].
    destruct (time_sleep env 3 a2) as [[e|[]] a3]; [discriminate|].
    rewrite Hfill. change (negb true) with false. cbv beta iota.
    rewrite Hcaptcha. change (negb true) with false. cbv beta iota.
    rewrite Hsubmit. change (negb true) with false. cbv beta iota.
    destruct (time_sleep env (request_delay self) s4) as [[e|[]] a4]; [discriminate|].
    rewrite Hsource, Hparse, Hfail. unfold is_last. now rewrite Z.eqb_refl. }
  cbn [for_attempts]. unfold bind at 1. unfold loop_body. unfold bind at 1.
  rewrite Hsetup. change (negb true) with false. cbv beta iota.
  unfold bind at 1. unfold try_finally, try_except. rewrite Htry.
  destruct (close_driver_returns env s6) as (s7 & -> & _). reflexivity.
Qed.

(** C7: when the last turn of the loop reaches the parser and the page
    holds a no-record phrase, [scrape_case_data] returns the parser's
    failure 'No record found for the specified case.' itself, and not the
    closing 'All scraping attempts failed'. *)
Theorem no_record_on_final_attempt_returned
        (env : Env) (self : Config) (case_type case_number filing_year : string)
        (st0 st s1 s2 s3 s4 s5 : State env) (html : string) :
  (0 < max_retries self)%Z ->
  passed_over env self case_type case_number filing_year
              (range (max_retries self - 1)) st0 st ->
  _setup_driver env st = (inr true, s1) ->
  (do_get env (case_search_url self) ;;;
   do_wait env (timeout self) TAG_NAME "body" ;;;
   time_sleep env 3 ;;;
   _fill_search_form_enhanced env self case_type case_number filing_year) s1
    = (inr true, s2) ->
  _handle_captcha_enhanced env s2 = (inr true, s3) ->
  _submit_form env s3 = (inr true, s4) ->
  (time_sleep env (request_delay self) ;;; do_page_source env) s4 = (inr html, s5) ->
  has_no_record_phrase html = true ->
  _parse_case_results_enhanced env self html s5 =
    (inr (Failure "No record found for the specified case."), s5) /\
  fst (scrape_case_data env self case_type case_number filing_year st0) =
    inr (Failure "No record found for the specified case.").
Proof.
  intros Hpos Hpassed Hsetup Hfill Hcaptcha Hsubmit Hsource Hphrase.
  assert (Hparse : _parse_case_results_enhanced env self html s5 =
                   (inr (Failure "No record found for the specified case."), s5)).
  { unfold _parse_case_results_enhanced. unfold has_no_record_phrase in Hphrase.
    now rewrite Hphrase. }
  split; [exact Hparse|].
  now apply (final_failure_returned env self case_type case_number filing_year
               st0 st s1 s2 s3 s4 s5 s5 html).
Qed.

Lemma no_record_on_final_attempt_returned_witness :
  _parse_case_results_enhanced Fixture.court default_config Fixture.notice_html
    Fixture.missing_loaded =
    (inr (Failure "No record found for the specified case."), Fixture.missing_loaded) /\
  fst (scrape_case_data Fixture.court default_config "Civil Appeal" "1234" "2023"
         Fixture.missing_start) =
    inr (Failure "No record found for the specified case.").
Proof.
  apply (no_record_on_final_attempt_returned Fixture.court default_config
           "Civil Appeal" "1234" "2023"
           Fixture.missing_start Fixture.missing_after_2 Fixture.missing_set_up
           Fixture.missing_filled Fixture.missing_solved Fixture.missing_submitted
           Fixture.missing_loaded Fixture.notice_html).
  - reflexivity.
  - exists Continue, Fixture.missing_after_1.
    split; [reflexivity|]. split; [now left|].
    exists Continue, Fixture.missing_after_2.
    split; [reflexivity|]. split; [now left|]. reflexivity.
  - reflexivity.
  - reflexivity.
  - reflexivity.
  - reflexivity.
  - reflexivity.
  - reflexivity.
Defined.

(** what [download_pdf] returns, read off the response *)
Lemma download_pdf_value (env : Env) (pdf_url : string) (st : State env) :
  fst (download_pdf env pdf_url st) =
    inr match fst (requests_get env pdf_url (world st)) with
        | inl _ => None
        | inr response =>
            if ((400 <=? status_code response) && (status_code response <? 600))%Z
            then None
            else if startswith (lower (header_get (headers response) "content-type" ""))
                               "application/pdf"
                 then Some (content response)
                 else None
        end.
Proof.
  unfold download_pdf, try_except, bind, command, raise_for_status, raise, ret.
  destruct (requests_get env pdf_url (world st)) as [[e|response] w']; [reflexivity|].
  simpl.
  destruct ((400 <=? status_code response) && (status_code response <? 600))%Z;
    [reflexivity|].
  now destruct (startswith (lower (header_get (headers response) "content-type" ""))
                           "application/pdf").
Qed.

(** C8: [download_pdf] hands out the bytes of the response only when the
    request went through and the declared content type, in lower case,
    begins with "application/pdf"; for every response whose content type
    does not begin so it returns None, the failure value of the method, and
    no bytes; it never raises. A response declared text/html gives None. *)
Theorem download_returns_only_pdf (env : Env) (pdf_url : string) (st : State env) :
  (forall bytes,
      fst (download_pdf env pdf_url st) = inr (Some bytes) ->
      exists response w',
        requests_get env pdf_url (world st) = (inr response, w') /\
        startswith (lower (header_get (headers response) "content-type" ""))
                   "application/pdf" = true /\
        bytes = content response) /\
  (forall response w',
      requests_get env pdf_url (world st) = (inr response, w') ->
      startswith (lower (header_get (headers response) "content-type" ""))
                 "application/pdf" = false ->
      fst (download_pdf env pdf_url st) = inr None) /\
  (exists r, fst (download_pdf env pdf_url st) = inr r) /\
  fst (download_pdf Fixture.court "https://host/x.pdf"
         (Fixture.fresh (Fixture.site ""))) = inr None.
Proof.
  split; [|split; [|split; [|reflexivity]]].
  - intros bytes. rewrite download_pdf_value.
    destruct (requests_get env pdf_url (world st)) as [[e|response] w']; simpl;
      [discriminate|].
    destruct ((400 <=? status_code response) && (status_code response <? 600))%Z;
      [discriminate|].
    destruct (startswith (lower (header_get (headers response) "content-type" ""))
                         "application/pdf") eqn:Hct; [|discriminate].
    intros [= <-]. now exists response, w'.
  - intros response w' Hget Hct. rewrite download_pdf_value, Hget. simpl.
    rewrite Hct. now destruct (_ && _)%Z.
  - rewrite download_pdf_value. now eexists.
Qed.




(** * Further properties of the scraper *)

(** ** Methods that leave the session alone *)

Section Only.

Variable env : Env.
Variable P : Event (H env) (E env) -> Prop.

Lemma appends_refl (st : State env) : appends P st st.
Proof. split; [reflexivity|]. exists []. now rewrite app_nil_r. Qed.

Lemma appends_trans (a b c : State env) :
  appends P a b -> appends P b c -> appends P a c.
Proof.
  intros [Hd1 (e1 & Hl1 & Hq1)] [Hd2 (e2 & Hl2 & Hq2)]. split; [congruence|].
  exists (e1 ++ e2). split; [now rewrite Hl2, Hl1, app_assoc|].
  apply Forall_app. now split.
Qed.

Lemma only_ret {A} (a : A) : only P (ret (env := env) a).
Proof. intros st. apply appends_refl. Qed.

Lemma only_raise {A} (e : Exn) : only P (raise env (A := A) e).
Proof. intros st. apply appends_refl. Qed.

Lemma only_bind {A B} (m : M env A) (k : A -> M env B) :
  only P m -> (forall a, only P (k a)) -> only P (bind m k).
Proof.
  intros Hm Hk st. unfold bind. specialize (Hm st).
  destruct (m st) as [[e|a] s1]; simpl in *; [exact Hm|].
  eapply appends_trans; [exact Hm | apply Hk].
Qed.

Lemma only_try_except {A} (m : M env A) (handler : Exn -> M env A) :
  only P m -> (forall e, only P (handler e)) -> only P (try_except env m handler).
Proof.
  intros Hm Hh st. unfold try_except. specialize (Hm st).
  destruct (m st) as [[e|a] s1]; simpl in *; [|exact Hm].
  eapply appends_trans; [exact Hm | apply Hh].
Qed.

Lemma only_attempt {A} (m : M env A) : only P m -> only P (attempt_ env m).
Proof.
  intros Hm st. unfold attempt_. specialize (Hm st). now destruct (m st).
Qed.

Lemma only_command {A} (ev : Event (H env) (E env)) (f : W env -> res A * W env) :
  P ev -> only P (command env ev f).
Proof.
  intros Hev st. unfold command. destruct (f (world st)) as [r w']. simpl.
  split; [reflexivity|]. exists [ev]. split; [reflexivity|]. now constructor.
Qed.

Lemma only_query {A} (f : W env -> res A) : only P (query env f).
Proof. intros st. apply appends_refl. Qed.

Lemma only_the_driver : only P (the_driver env).
Proof.
  intros st. unfold the_driver. destruct (driver st); apply appends_refl.
Qed.

Lemma only_lift_res {A} (r : res A) : only P (lift_res env r).
Proof. intros st. apply appends_refl. Qed.

Lemma only_if {A} (b : bool) (m1 m2 : M env A) :
  only P m1 -> only P m2 -> only P (if b then m1 else m2).
Proof. now destruct b. Qed.

End Only.

Create HintDb keeps.

(** the rules above, applied as far as they go; a command is let through
    when its event is seen to satisfy the predicate *)
Ltac keeps_step :=
  first [ assumption | solve [auto with keeps nocore]
        | apply only_ret | apply only_raise | apply only_query
        | apply only_the_driver | apply only_lift_res
        | apply only_command; solve [reflexivity | exact I | simpl; auto]
        | apply only_bind; [|intro]
        | apply only_try_except; [|intro]
        | apply only_attempt
        | match goal with
          | |- only _ (if _ then _ else _) => apply only_if
          | |- only _ (match ?x with _ => _ end) => destruct x
          end ].

Ltac keeps := unfold keeps_session; repeat keeps_step.

Lemma only_try_selectors (env : Env) (P : Event (H env) (E env) -> Prop)
      (selectors : list string) (action : string -> M env unit) :
  (forall selector, only P (action selector)) ->
  only P (try_selectors env selectors action).
Proof.
  intros Ha. induction selectors as [|selector rest IH]; cbn [try_selectors]; keeps;
    apply Ha.
Qed.

Ltac keeps_all := keeps; try (apply only_try_selectors; intro; keeps).

Section SessionFacts.

Variable env : Env.

Lemma keeps_time_sleep (n : Z) : only quiet (time_sleep env n).
Proof. unfold time_sleep. keeps. Qed.

Lemma keeps_execute_script (script : string) (args : list (E env)) :
  only quiet (do_execute_script env script args).
Proof. unfold do_execute_script. keeps. Qed.

Lemma keeps_fill (self : Config) (case_type case_number filing_year : string) :
  only quiet (_fill_search_form_enhanced env self case_type case_number filing_year).
Proof. unfold _fill_search_form_enhanced. keeps_all. Qed.

Lemma keeps_scan_elements (elements : list (E env)) :
  only quiet (scan_elements env elements).
Proof. induction elements as [|element rest IH]; cbn [scan_elements]; keeps. Qed.

#[local] Hint Resolve keeps_scan_elements : keeps.

Lemma keeps_detect_captcha (selectors : list string) :
  only quiet (detect_captcha env selectors).
Proof. induction selectors as [|selector rest IH]; cbn [detect_captcha]; keeps. Qed.

#[local] Hint Resolve keeps_detect_captcha : keeps.

Lemma keeps_handle_captcha : only quiet (_handle_captcha_enhanced env).
Proof. unfold _handle_captcha_enhanced, captcha_from_source. keeps_all. Qed.

Lemma keeps_submit_form : only quiet (_submit_form env).
Proof. unfold _submit_form. keeps_all. Qed.

Lemma keeps_collect_hrefs (self : Config) (elements : list (E env)) :
  forall pdf_urls, only quiet (collect_hrefs env self elements pdf_urls).
Proof.
  induction elements as [|element rest IH]; intros pdf_urls; cbn [collect_hrefs]; keeps;
    apply IH.
Qed.

#[local] Hint Resolve keeps_collect_hrefs : keeps.

Lemma keeps_orders_loop (self : Config) (selectors : list string) :
  forall pdf_urls, only quiet (orders_loop env self selectors pdf_urls).
Proof.
  induction selectors as [|selector rest IH]; intros pdf_urls; cbn [orders_loop]; keeps;
    apply IH.
Qed.

#[local] Hint Resolve keeps_orders_loop : keeps.

Lemma keeps_extract_pdfs (self : Config) (soup : Soup.Node) (cols : list Soup.Node) :
  only quiet (_extract_pdfs_enhanced env self soup cols).
Proof. unfold _extract_pdfs_enhanced, _check_orders_page. keeps. Qed.

#[local] Hint Resolve keeps_extract_pdfs : keeps.

Lemma keeps_parse (self : Config) (html : string) :
  only quiet (_parse_case_results_enhanced env self html).
Proof. unfold _parse_case_results_enhanced. keeps. Qed.

#[local] Hint Resolve keeps_fill keeps_handle_captcha keeps_submit_form keeps_parse : keeps.

Lemma keeps_try_block (self : Config) (ct cn fy : string) (attempt : Z) :
  only quiet (try_block env self ct cn fy attempt).
Proof. unfold try_block, submit_and_parse. keeps. Qed.

Lemma keeps_except_clauses (self : Config) (attempt : Z) (e : Exn) :
  only quiet (except_clauses env self attempt e).
Proof. unfold except_clauses. keeps. Qed.

(** ** The turns of the retry loop *)

Variable self : Config.
Variables case_type case_number filing_year : string.

Lemma except_clauses_returns (attempt : Z) (e : Exn) (st : State env) :
  exists c, except_clauses env self attempt e st = (inr c, st).
Proof.
  unfold except_clauses.
  destruct (exn_kind e); destruct (is_last self attempt); eexists; reflexivity.
Qed.

(** the [try] statement with its [except] clauses: it returns, and keeps
    the session *)
Lemma guarded_block_returns (attempt : Z) (s1 : State env) :
  exists c s2,
    try_except env (try_block env self case_type case_number filing_year attempt)
               (except_clauses env self attempt) s1 = (inr c, s2) /\
    appends quiet s1 s2.
Proof.
  pose proof (keeps_try_block self case_type case_number filing_year attempt s1) as Hk.
  unfold try_except.
  destruct (try_block env self case_type case_number filing_year attempt s1)
    as [[e|c] s2]; simpl in Hk.
  - destruct (except_clauses_returns attempt e s2) as (c & ->). now exists c, s2.
  - now exists c, s2.
Qed.

(** what [_setup_driver] does, by what Chrome does *)
Lemma setup_driver_cases (st : State env) :
  (exists e w',
      chrome_start env (world st) = (inl e, w') /\
      _setup_driver env st =
        (inr false, mkState w' (driver st) (log st ++ [EvStart None]))) \/
  (exists h w1,
      chrome_start env (world st) = (inr h, w1) /\
      _setup_driver env st =
        (inr (match fst (execute_script env h stealth_script [] w1) with
              | inl _ => false
              | inr _ => true
              end),
         mkState (snd (execute_script env h stealth_script [] w1)) (Some h)
                 (log st ++ [EvStart (Some h); EvScript h stealth_script []]))).
Proof.
  unfold _setup_driver, try_except, start_chrome, set_driver, do_execute_script,
    the_driver, command, bind, ret.
  destruct (chrome_start env (world st)) as [[e|h] w1].
  - left. now exists e, w1.
  - right. exists h, w1. split; [reflexivity|]. simpl.
    destruct (execute_script env h stealth_script [] w1) as [[e|[]] w2]; simpl;
      now rewrite <- app_assoc.
Qed.

(** the turn from the [try] statement on, entered with a session [h] *)
Lemma turn_after_setup (attempt : Z) (s1 : State env) (h : H env) :
  driver s1 = Some h ->
  exists c st' used pause,
    (c <- try_finally env
            (try_except env (try_block env self case_type case_number filing_year attempt)
                        (except_clauses env self attempt))
            (_close_driver env) ;;
     match c with
     | Fallthrough =>
         (if (attempt <? max_retries self - 1)%Z then time_sleep env 5 else ret tt) ;;;
         ret Fallthrough
     | _ => ret c
     end) s1 = (inr c, st') /\
    driver st' = None /\
    log st' = log s1 ++ used ++ [EvQuit h] ++ pause /\
    Forall quiet used /\
    (pause = [] \/ pause = [EvSleep 5]) /\
    (pause = [EvSleep 5] <-> (c = Fallthrough /\ (attempt <? max_retries self - 1)%Z = true)).
Proof.
  intros Hd.
  destruct (guarded_block_returns attempt s1) as (c & s2 & Hblock & Hdrv & used & Hlog & Hq).
  rewrite Hd in Hdrv.
  unfold bind at 1. unfold try_finally. rewrite Hblock.
  rewrite (close_driver_quits env s2 h Hdrv).
  destruct c as [|r|].
  - eexists Continue, _, used, []. simpl. rewrite Hlog, <- app_assoc.
    repeat split; auto; try discriminate. intros [? _]. discriminate.
  - eexists (Return r), _, used, []. simpl. rewrite Hlog, <- app_assoc.
    repeat split; auto; try discriminate. intros [? _]. discriminate.
  - destruct (attempt <? max_retries self - 1)%Z eqn:Hlt.
    + eexists Fallthrough, _, used, [EvSleep 5]. unfold bind, time_sleep, command, ret.
      simpl. rewrite Hlog, <- !app_assoc. repeat split; auto.
    + eexists Fallthrough, _, used, []. unfold bind, ret. simpl.
      rewrite Hlog, <- app_assoc. repeat split; auto; try discriminate.
      intros [_ ?]. discriminate.
Qed.

(** every turn returns, and adds one of the three shapes to the log *)
Lemma loop_body_turn (attempt : Z) (st : State env) :
  exists c st' evs,
    loop_body env self case_type case_number filing_year attempt st = (inr c, st') /\
    log st' = log st ++ evs /\ turn_shape evs.
Proof.
  unfold loop_body. unfold bind at 1.
  destruct (setup_driver_cases st) as [(e & w' & _ & ->) | (h & w1 & _ & ->)].
  - eexists Continue, _, [EvStart None]. simpl. repeat split. now left.
  - destruct (fst (execute_script env h stealth_script [] w1)) as [e|[]].
    + eexists Continue, _, _. simpl. repeat split. right. left. now exists h.
    + change (negb true) with false. cbv beta iota.
      destruct (turn_after_setup attempt
                  (mkState (snd (execute_script env h stealth_script [] w1)) (Some h)
                           (log st ++ [EvStart (Some h); EvScript h stealth_script []]))
                  h eq_refl)
        as (c & st' & used & pause & -> & _ & Hlog & Hq & Hp & _).
      exists c, st', ([EvStart (Some h); EvScript h stealth_script []] ++ used ++ [EvQuit h] ++ pause).
      split; [reflexivity|]. split.
      * rewrite Hlog. simpl. now rewrite <- !app_assoc.
      * right. right. now exists h, used, pause.
Qed.

Lemma for_attempts_turns (attempts : list Z) :
  forall st : State env,
  exists r st' turns,
    for_attempts env self case_type case_number filing_year attempts st = (inr r, st') /\
    log st' = log st ++ List.concat turns /\
    List.length turns <= List.length attempts /\
    Forall turn_shape turns.
Proof.
  induction attempts as [|attempt rest IH]; intros st.
  - eexists _, st, []. simpl. rewrite app_nil_r. repeat split; auto.
  - destruct (loop_body_turn attempt st) as (c & s1 & evs & Hbody & Hlog & Hshape).
    cbn [for_attempts]. unfold bind at 1. rewrite Hbody.
    assert (Hnext : exists r st' turns,
               for_attempts env self case_type case_number filing_year rest s1 = (inr r, st') /\
               log st' = log st ++ List.concat turns /\
               List.length turns <= List.length (attempt :: rest) /\
               Forall turn_shape turns).
    { destruct (IH s1) as (r & st' & turns & Hrun & Hl & Hlen & Hall).
      exists r, st', (evs :: turns). split; [exact Hrun|]. split.
      - rewrite Hl, Hlog. simpl. now rewrite <- app_assoc.
      - split; [simpl; lia | now constructor]. }
    destruct c as [|result|]; try exact Hnext.
    exists result, s1, [evs]. simpl. rewrite app_nil_r.
    repeat split; auto; lia.
Qed.

End SessionFacts.

(** ** Sessions and turns: what the loop guarantees *)

(** X1: [_close_driver] never raises, also when [quit] does; it leaves
    [self.driver] cleared; with a live session it sends exactly one quit,
    for that session, and with none it sends nothing; a second call right
    after changes nothing. *)
Theorem close_driver_always_releases (env : Env) (st : State env) :
  exists st',
    _close_driver env st = (inr tt, st') /\
    driver st' = None /\
    log st' = log st ++ match driver st with Some h => [EvQuit h] | None => [] end /\
    _close_driver env st' = (inr tt, st').
Proof.
  destruct (driver st) as [h|] eqn:Hd.
  - eexists. split; [apply close_driver_quits; exact Hd|]. repeat split.
  - exists st. split; [now apply close_driver_idle|].
    rewrite app_nil_r. repeat split; [exact Hd | now apply close_driver_idle].
Qed.

(** X2: [scrape_case_data] never raises: whatever Chrome, the page and
    the parser do, it returns a result dictionary. *)
Theorem scrape_never_raises
        (env : Env) (self : Config) (case_type case_number filing_year : string)
        (st : State env) :
  exists r, fst (scrape_case_data env self case_type case_number filing_year st) = inr r.
Proof.
  unfold scrape_case_data.
  destruct (for_attempts_turns env self case_type case_number filing_year
              (range (max_retries self)) st) as (r & st' & turns & -> & _).
  now exists r.
Qed.

(** X3: what [scrape_case_data] adds to the command log is a sequence of
    at most [max_retries] turns, each of them a failed call of Chrome, or a
    session whose first script raised, or a session that was started, used
    and quit: once a set-up has gone through, no other session is started
    before that one is quit, and Chrome is called at most [max_retries]
    times. *)
Theorem scrape_sessions_by_turns
        (env : Env) (self : Config) (case_type case_number filing_year : string)
        (st : State env) :
  exists turns,
    log (snd (scrape_case_data env self case_type case_number filing_year st)) =
      log st ++ List.concat turns /\
    List.length turns <= Z.to_nat (max_retries self) /\
    Forall turn_shape turns /\
    start_calls (List.concat turns) = List.length turns.
Proof.
  unfold scrape_case_data.
  destruct (for_attempts_turns env self case_type case_number filing_year
              (range (max_retries self)) st) as (r & st' & turns & -> & Hlog & Hlen & Hall).
  exists turns. split; [exact Hlog|]. split; [now rewrite range_length in Hlen|].
  split; [exact Hall|].
  clear Hlog Hlen. induction Hall as [|evs turns Hshape _ IH]; [reflexivity|].
  simpl. unfold start_calls in *. rewrite filter_app, length_app, IH. f_equal.
  destruct Hshape as [-> | [(h & ->) | (h & used & pause & -> & Hq & Hp)]];
    try reflexivity.
  simpl. rewrite !filter_app, !length_app. simpl.
  assert (Hused : filter (fun ev : Event (H env) (E env) =>
                            match ev with EvStart _ => true | _ => false end) used = []).
  { clear -Hq. induction Hq as [|ev used Hev _ IH]; [reflexivity|].
    simpl. rewrite IH. destruct ev; try reflexivity. discriminate Hev. }
  rewrite Hused. now destruct Hp as [-> | ->].
Qed.

(** X4: once [_setup_driver] has returned True, the turn of the loop
    returns with [self.driver] cleared; between the set-up and the end of
    the turn the log holds commands to that session, then its quit, and
    after the quit at most the pause of five seconds, which is there
    exactly when the turn ended in a caught exception and was not the
    last. *)
Theorem completed_setup_turn_quits
        (env : Env) (self : Config) (case_type case_number filing_year : string)
        (attempt : Z) (st s1 : State env) :
  _setup_driver env st = (inr true, s1) ->
  exists h c st' used pause,
    driver s1 = Some h /\
    loop_body env self case_type case_number filing_year attempt st = (inr c, st') /\
    driver st' = None /\
    log st' = log s1 ++ used ++ [EvQuit h] ++ pause /\
    Forall quiet used /\
    (pause = [] \/ pause = [EvSleep 5]) /\
    (pause = [EvSleep 5] <->
     (c = Fallthrough /\ (attempt <? max_retries self - 1)%Z = true)).
Proof.
  intros Hsetup.
  assert (Hd : exists h, driver s1 = Some h).
  { destruct (setup_driver_cases env st) as [(e & w' & _ & Heq) | (h & w1 & _ & Heq)];
      rewrite Heq in Hsetup; [discriminate|].
    injection Hsetup as _ <-. now exists h. }
  destruct Hd as (h & Hd).
  destruct (turn_after_setup env self case_type case_number filing_year attempt s1 h Hd)
    as (c & st' & used & pause & Hrun & Hnone & Hlog & Hq & Hp & Hiff).
  exists h, c, st', used, pause. split; [exact Hd|]. split.
  - unfold loop_body. unfold bind at 1. rewrite Hsetup.
    change (negb true) with false. cbv beta iota. exact Hrun.
  - split; [exact Hnone|]. split; [exact Hlog|]. split; [exact Hq|].
    split; [exact Hp | exact Hiff].
Qed.

Lemma completed_setup_turn_quits_witness :
  exists h c st' used pause,
    driver (snd (_setup_driver Fixture.court (Fixture.fresh Fixture.site_without_form))) = Some h /\
    loop_body Fixture.court default_config "Civil Appeal" "1234" "2023" 0
      (Fixture.fresh Fixture.site_without_form) = (inr c, st') /\
    driver st' = None /\
    log st' = log (snd (_setup_driver Fixture.court (Fixture.fresh Fixture.site_without_form)))
                ++ used ++ [EvQuit h] ++ pause /\
    Forall quiet used /\
    (pause = [] \/ pause = [EvSleep 5]) /\
    (pause = [EvSleep 5] <->
     (c = Fallthrough /\ (0 <? max_retries default_config - 1)%Z = true)).
Proof.
  apply (completed_setup_turn_quits Fixture.court default_config
           "Civil Appeal" "1234" "2023" 0 (Fixture.fresh Fixture.site_without_form)).
  reflexivity.
Defined.

(** X5: when the [try] block of a turn raises after a completed set-up,
    the session is quit; on the last turn the loop returns a failure whose
    text is 'Failed to find required elements on the page' for a timeout or
    a missing element and the text of the exception otherwise; on an
    earlier turn the loop goes on, after a pause of five seconds. *)
Theorem exception_in_turn
        (env : Env) (self : Config) (case_type case_number filing_year : string)
        (attempt : Z) (st s1 s2 : State env) (e : Exn) :
  _setup_driver env st = (inr true, s1) ->
  try_block env self case_type case_number filing_year attempt s1 = (inl e, s2) ->
  exists h st',
    driver s2 = Some h /\
    loop_body env self case_type case_number filing_year attempt st =
      (inr (if (attempt =? max_retries self - 1)%Z
            then Return (Failure match exn_kind e with
                                 | OtherException => exn_msg e
                                 | _ => "Failed to find required elements on the page"
                                 end)
            else Fallthrough), st') /\
    driver st' = None /\
    log st' = log s2 ++ [EvQuit h] ++
              (if (attempt <? max_retries self - 1)%Z then [EvSleep 5] else []).
Proof.
  intros Hsetup Htry.
  assert (Hd : exists h, driver s2 = Some h).
  { pose proof (keeps_try_block env self case_type case_number filing_year attempt s1)
      as [Hdrv _].
    rewrite Htry in Hdrv. simpl in Hdrv.
    destruct (setup_driver_cases env st) as [(e0 & w' & _ & Heq) | (h & w1 & _ & Heq)];
      rewrite Heq in Hsetup; [discriminate|].
    injection Hsetup as _ <-. now exists h. }
  destruct Hd as (h & Hd). exists h.
  unfold loop_body. unfold bind at 1. rewrite Hsetup.
  change (negb true) with false. cbv beta iota.
  unfold bind at 1. unfold try_finally, try_except. rewrite Htry.
  unfold except_clauses, is_last.
  destruct (attempt =? max_retries self - 1)%Z eqn:Hlast.
  - assert (Hlt : (attempt <? max_retries self - 1)%Z = false) by lia.
    rewrite Hlt.
    destruct (exn_kind e); unfold ret; rewrite (close_driver_quits env s2 h Hd);
      eexists; repeat split; exact Hd.
  - assert (Hsame : (match exn_kind e with
                     | OtherException => ret (env := env) Fallthrough
                     | _ => ret Fallthrough
                     end) s2 = (inr Fallthrough, s2)) by now destruct (exn_kind e).
    rewrite Hsame, (close_driver_quits env s2 h Hd).
    destruct (attempt <? max_retries self - 1)%Z;
      unfold bind, time_sleep, command, ret; simpl; eexists; repeat split;
      try exact Hd.
    now rewrite <- app_assoc.
Qed.

Lemma exception_in_turn_witness :
  exists h st',
    driver (snd (try_block Fixture.court default_config "Civil Appeal" "1234" "2023" 0
                   (snd (_setup_driver Fixture.court
                           (Fixture.fresh Fixture.site_without_form))))) = Some h /\
    loop_body Fixture.court default_config "Civil Appeal" "1234" "2023" 0
      (Fixture.fresh Fixture.site_without_form) = (inr Fallthrough, st') /\
    driver st' = None /\
    log st' =
      log (snd (try_block Fixture.court default_config "Civil Appeal" "1234" "2023" 0
                  (snd (_setup_driver Fixture.court
                          (Fixture.fresh Fixture.site_without_form)))))
        ++ [EvQuit h] ++ [EvSleep 5].
Proof.
  apply (exception_in_turn Fixture.court default_config "Civil Appeal" "1234" "2023" 0
           (Fixture.fresh Fixture.site_without_form)
           (snd (_setup_driver Fixture.court (Fixture.fresh Fixture.site_without_form)))
           (snd (try_block Fixture.court default_config "Civil Appeal" "1234" "2023" 0
                   (snd (_setup_driver Fixture.court
                           (Fixture.fresh Fixture.site_without_form)))))
           Fixture.timed_out).
  - reflexivity.
  - reflexivity.
Defined.

(** X6: when on the last turn a stage gives up (the form cannot be
    filled, the CAPTCHA cannot be typed in, or no submit button is found),
    [scrape_case_data] returns the closing failure 'All scraping attempts
    failed', with no word about the stage. *)
Theorem stage_failure_on_final_attempt
        (env : Env) (self : Config) (case_type case_number filing_year : string)
        (st0 st s1 s2 : State env) :
  (0 < max_retries self)%Z ->
  passed_over env self case_type case_number filing_year
              (range (max_retries self - 1)) st0 st ->
  _setup_driver env st = (inr true, s1) ->
  try_block env self case_type case_number filing_year (max_retries self - 1) s1
    = (inr Continue, s2) ->
  fst (scrape_case_data env self case_type case_number filing_year st0) =
    inr (Failure "All scraping attempts failed").
Proof.
  intros Hpos Hpassed Hsetup Htry.
  unfold scrape_case_data. rewrite (range_last _ Hpos).
  rewrite (for_attempts_passed_over env self case_type case_number filing_year
             _ [(max_retries self - 1)%Z] st0 st Hpassed).
  cbn [for_attempts]. unfold bind at 1. unfold loop_body. unfold bind at 1.
  rewrite Hsetup. change (negb true) with false. cbv beta iota.
  unfold bind at 1. unfold try_finally, try_except. rewrite Htry.
  destruct (close_driver_returns env s2) as (s3 & -> & _). reflexivity.
Qed.

Lemma stage_failure_on_final_attempt_witness :
  fst (scrape_case_data Fixture.court_without_captcha_input (init 30 1 5)
         "Civil Appeal" "1234" "2023"
         (mkState (env := Fixture.court_without_captcha_input)
                  (Fixture.site_with_challenge Fixture.case_html) None [])) =
    inr (Failure "All scraping attempts failed").
Proof.
  pose (st0 := mkState (env := Fixture.court_without_captcha_input)
                       (Fixture.site_with_challenge Fixture.case_html) None []).
  pose (s1 := snd (_setup_driver Fixture.court_without_captcha_input st0)).
  apply (stage_failure_on_final_attempt Fixture.court_without_captcha_input (init 30 1 5)
           "Civil Appeal" "1234" "2023" st0 st0 s1
           (snd (try_block Fixture.court_without_captcha_input (init 30 1 5)
                   "Civil Appeal" "1234" "2023" 0 s1))).
  - reflexivity.
  - reflexivity.
  - reflexivity.
  - reflexivity.
Defined.

(** ** The stages of a turn *)

Section StageFacts.

Variable env : Env.

Lemma try_selectors_returns (selectors : list string) (action : string -> M env unit) :
  forall st, exists b, fst (try_selectors env selectors action st) = inr b.
Proof.
  induction selectors as [|selector rest IH]; intros st; [now exists false|].
  cbn [try_selectors]. unfold bind at 1. unfold try_except, bind.
  destruct (action selector st) as [[e|[]] s1]; simpl; [apply IH | now exists true].
Qed.

(** when the loop over the selectors ends with success, its last step was
    an action that went through *)
Lemma try_selectors_true (P : Event (H env) (E env) -> Prop)
      (selectors : list string) (action : string -> M env unit) :
  (forall selector, only P (action selector)) ->
  forall st st',
    try_selectors env selectors action st = (inr true, st') ->
    exists selector s,
      In selector selectors /\ appends P st s /\ action selector s = (inr tt, st').
Proof.
  intros Ha. induction selectors as [|selector rest IH]; intros st st' Hrun;
    [discriminate|].
  cbn [try_selectors] in Hrun. unfold bind at 1 in Hrun. unfold try_except, bind in Hrun.
  pose proof (Ha selector st) as Hstep.
  destruct (action selector st) as [[e|[]] s1] eqn:Hact; simpl in Hrun, Hstep.
  - destruct (IH s1 st' Hrun) as (sel & s & Hin & Happ & Hok).
    exists sel, s. split; [now right|]. split; [|exact Hok].
    eapply appends_trans; eassumption.
  - injection Hrun as <-. exists selector, st.
    split; [now left|]. split; [apply appends_refl | exact Hact].
Qed.

(** the scan of the elements reads only, and what it picks looks like a
    challenge *)
Lemma scan_elements_result (elements : list (E env)) (st : State env) :
  snd (scan_elements env elements st) = st /\
  forall text, fst (scan_elements env elements st) = inr (Some text) ->
               looks_like_captcha text = true.
Proof.
  induction elements as [|element rest IH]; cbn [scan_elements].
  - split; [reflexivity | discriminate].
  - unfold bind, query. destruct (elem_text env element (world st)) as [e|t].
    + split; [reflexivity | discriminate].
    + destruct (looks_like_captcha (strip t)) eqn:Hl; [|exact IH].
      split; [reflexivity|]. now intros text [= <-].
Qed.

Lemma detect_captcha_result (selectors : list string) (st : State env) :
  exists found,
    detect_captcha env selectors st = (inr found, st) /\
    forall text, found = Some text -> looks_like_captcha text = true.
Proof.
  induction selectors as [|selector rest IH]; cbn [detect_captcha].
  - exists None. split; [reflexivity | discriminate].
  - unfold bind at 1. unfold try_except, do_find_elements, bind, the_driver, query.
    destruct (driver st) as [h|]; [|exact IH].
    destruct (find_elements env h selector (world st)) as [e|elements]; [exact IH|].
    destruct (scan_elements_result elements st) as [Hst Hlooks].
    destruct (scan_elements env elements st) as [[e|[text|]] s1]; simpl in Hst; subst s1;
      try exact IH.
    exists (Some text). split; [reflexivity|]. intros t [= <-]. now apply Hlooks.
Qed.










End StageFacts.



(** X8: when [_submit_form] returns True, the last three commands it sent
    are the scroll to a button, the pause of one second, and the click on
    that same button, all in the live session, the button being found by
    one of the submit selectors. *)
Theorem submit_clicks_the_button_it_found (env : Env) (st st' : State env) :
  _submit_form env st = (inr true, st') ->
  exists h selector s button,
    driver st = Some h /\
    In selector submit_selectors /\
    appends quiet st s /\
    find_element env h selector (world s) = inr button /\
    log st' = log s ++ [EvScript h scroll_script [button]; EvSleep 1;
                        EvScript h click_script [button]].
Proof.
  unfold _submit_form, try_except. intros Hrun.
  match type of Hrun with context [try_selectors env ?sels ?act st] =>
    destruct (try_selectors env sels act st) as [[e|b] s1] eqn:Hloop;
    [discriminate|]; pose proof (try_selectors_true env quiet sels act) as Htrue
  end.
  injection Hrun as -> ->.
  destruct (Htrue ltac:(intro; keeps) st st' Hloop) as (selector & s & Hin & Happ & Hact).
  cbv beta in Hact.
  unfold do_find_element, do_execute_script, time_sleep, command, the_driver, query, bind
    in Hact.
  destruct (driver s) as [h|] eqn:Hd; [|discriminate].
  destruct (find_element env h selector (world s)) as [e|button] eqn:Hfind; [discriminate|].
  simpl in Hact. rewrite Hd in Hact.
  destruct (execute_script env h scroll_script [button] (world s)) as [[e|[]] w1];
    [discriminate|].
  simpl in Hact. rewrite Hd in Hact. simpl in Hact.
  destruct (execute_script env h click_script [button] (sleep env 1 w1)) as [[e|[]] w2];
    [discriminate|].
  injection Hact as <-. simpl.
  exists h, selector, s, button. destruct Happ as [Hdrv Hlog].
  split; [congruence|]. split; [exact Hin|]. split; [now split|].
  split; [exact Hfind|]. now rewrite <- !app_assoc.
Qed.

Lemma submit_clicks_the_button_it_found_witness :
  exists h selector s button,
    driver (Fixture.live (Fixture.site Fixture.case_html)) = Some h /\
    In selector submit_selectors /\
    appends quiet (Fixture.live (Fixture.site Fixture.case_html)) s /\
    find_element Fixture.court h selector (world s) = inr button /\
    log (snd (_submit_form Fixture.court (Fixture.live (Fixture.site Fixture.case_html)))) =
      log s ++ [EvScript h scroll_script [button]; EvSleep 1;
                EvScript h click_script [button]].
Proof.
  apply (submit_clicks_the_button_it_found Fixture.court
           (Fixture.live (Fixture.site Fixture.case_html))).
  reflexivity.
Defined.

(** X9: when [_fill_search_form_enhanced] returns True, the three fields
    were written in the order of the form and with the values of the query:
    the log holds a selection of the case type by its text, later the
    clearing of a field and the typing of the case number into that same
    field, and as its last command the selection of the filing year by its
    value. *)
Theorem fill_writes_the_three_fields
        (env : Env) (self : Config) (case_type case_number filing_year : string)
        (st st' : State env) :
  _fill_search_form_enhanced env self case_type case_number filing_year st = (inr true, st') ->
  exists e1 e2 e3 evs1 evs2 evs3,
    log st' = log st ++ evs1 ++ [EvSelectText e1 case_type]
                     ++ evs2 ++ [EvClear e2; EvSendKeys e2 case_number]
                     ++ evs3 ++ [EvSelectValue e3 filing_year].
Proof.
  unfold _fill_search_form_enhanced, try_except. intros Hrun.
  set (anything := fun _ : Event (H env) (E env) => True).
  unfold bind at 1 in Hrun.
  match type of Hrun with context [try_selectors env ?sels ?act st] =>
    destruct (try_selectors env sels act st) as [[e|[|]] s1] eqn:H1;
    try discriminate;
    destruct (try_selectors_true env anything sels act ltac:(intro; keeps) st s1 H1)
      as (sel1 & a1 & _ & [_ (evs1 & Hl1 & _)] & Hact1)
  end.
  change (negb true) with false in Hrun. cbv beta iota in Hrun.
  unfold bind at 1 in Hrun.
  match type of Hrun with context [try_selectors env ?sels ?act s1] =>
    destruct (try_selectors env sels act s1) as [[e|[|]] s2] eqn:H2;
    try discriminate;
    destruct (try_selectors_true env anything sels act ltac:(intro; keeps) s1 s2 H2)
      as (sel2 & a2 & _ & [_ (evs2 & Hl2 & _)] & Hact2)
  end.
  change (negb true) with false in Hrun. cbv beta iota in Hrun.
  unfold bind at 1 in Hrun.
  match type of Hrun with context [try_selectors env ?sels ?act s2] =>
    destruct (try_selectors env sels act s2) as [[e|[|]] s3] eqn:H3;
    try discriminate;
    destruct (try_selectors_true env anything sels act ltac:(intro; keeps) s2 s3 H3)
      as (sel3 & a3 & _ & [_ (evs3 & Hl3 & _)] & Hact3)
  end.
  injection Hrun as <-.
  (* the three actions that went through *)
  cbv beta in Hact1, Hact2, Hact3.
  unfold do_wait, do_find_element, do_clear, do_send_keys, command, the_driver, query, bind
    in Hact1, Hact2, Hact3.
  destruct (driver a1) as [h1|]; [|discriminate].
  destruct (wait_presence env h1 (timeout self) XPATH sel1 (world a1)) as [[e|e1] w1];
    [discriminate|]. simpl in Hact1.
  destruct (select_by_visible_text env e1 case_type w1) as [[e|[]] w1']; [discriminate|].
  injection Hact1 as <-.
  destruct (driver a2) as [h2|]; [|discriminate].
  destruct (find_element env h2 sel2 (world a2)) as [e|e2]; [discriminate|].
  simpl in Hact2.
  destruct (elem_clear env e2 (world a2)) as [[e|[]] w2]; [discriminate|]. simpl in Hact2.
  destruct (send_keys env e2 case_number w2) as [[e|[]] w2']; [discriminate|].
  injection Hact2 as <-.
  destruct (driver a3) as [h3|]; [|discriminate].
  destruct (find_element env h3 sel3 (world a3)) as [e|e3]; [discriminate|].
  simpl in Hact3.
  destruct (select_by_value env e3 filing_year (world a3)) as [[e|[]] w3]; [discriminate|].
  injection Hact3 as <-.
  simpl in Hl2, Hl3 |- *.
  exists e1, e2, e3, (evs1 ++ [EvWait h1 (timeout self) XPATH sel1]), evs2, evs3.
  rewrite Hl3, Hl2, Hl1. now rewrite <- !app_assoc.
Qed.

Lemma fill_writes_the_three_fields_witness :
  exists e1 e2 e3 evs1 evs2 evs3,
    log (snd (_fill_search_form_enhanced Fixture.court default_config
                "Civil Appeal" "1234" "2023"
                (Fixture.live (Fixture.site Fixture.case_html)))) =
      log (Fixture.live (Fixture.site Fixture.case_html))
        ++ evs1 ++ [EvSelectText e1 "Civil Appeal"]
        ++ evs2 ++ [EvClear e2; EvSendKeys e2 "1234"]
        ++ evs3 ++ [EvSelectValue e3 "2023"].
Proof.
  apply (fill_writes_the_three_fields Fixture.court default_config
           "Civil Appeal" "1234" "2023"
           (Fixture.live (Fixture.site Fixture.case_html))).
  reflexivity.
Defined.

(** ** The parser and its links *)

(** X10: the parser never raises and has four outcomes only: the three
    failures 'No record found for the specified case.', 'Results table not
    found on the page.' and 'No data rows found in the results table.', or
    a success whose raw_html is the markup it was given, whose status is
    'Active', and whose orders all have the type 'Order' and the filing
    date as their date. The failure 'Error parsing results: ...' of its
    [except] clause is never returned. *)
Theorem parse_outcomes (env : Env) (self : Config) (html : string) (st : State env) :
  exists r st',
    _parse_case_results_enhanced env self html st = (inr r, st') /\
    (r = Failure "No record found for the specified case." \/
     r = Failure "Results table not found on the page." \/
     r = Failure "No data rows found in the results table." \/
     exists d,
       r = Success d /\ raw_html d = html /\ status d = "Active" /\
       Forall (fun o => order_type o = "Order" /\ order_date o = filing_date d)
              (orders d)).
Proof.
  destruct (data_row_cols env html) as [cols|] eqn:Hcols.
  - destruct (extract_pdfs_returns env self (BeautifulSoup env html) cols st)
      as (raw & st' & Hx).
    destruct (parse_data_row env self html cols st st' _ Hcols Hx) as (pl & df & _ & ->).
    eexists _, st'. split; [reflexivity|]. right. right. right.
    eexists. split; [reflexivity|]. simpl. repeat split.
    apply Forall_forall. intros o Ho. apply in_map_iff in Ho as (url & <- & _).
    now split.
  - unfold data_row_cols, has_no_record_phrase in Hcols.
    unfold _parse_case_results_enhanced.
    destruct (existsb _ no_record_phrases); [eexists _, st; split; [reflexivity | tauto]|].
    destruct (find_table table_selectors (BeautifulSoup env html)) as [tbl|];
      [|eexists _, st; split; [reflexivity | tauto]].
    destruct (Soup.find_all "tr" tbl) as [|r0 [|row rest]]; try discriminate;
      eexists _, st; (split; [reflexivity | tauto]).
Qed.

(** X11: the three ways of finding PDF links are tried in order and the
    first that gives a link settles the result: with a [.pdf] anchor in the
    cells of the row, the row's links, joined to the base URL, are returned
    and the session is not touched; with none there, the links the orders
    page gives are returned, if it gives any, and the anchors elsewhere on
    the result page are left out; only when both give nothing, the whole
    page is scanned. A join that raises leaves no link at all: the method
    then returns the empty list, also when other links were joined before.
    In each case the links come back without duplicates. *)
Theorem pdf_links_by_first_source
        (env : Env) (self : Config) (soup : Soup.Node) (cols : list Soup.Node)
        (st : State env) :
  (flat_map pdf_hrefs cols <> [] ->
   _extract_pdfs_enhanced env self soup cols st =
     (inr (match resolve_all env self (flat_map pdf_hrefs cols) with
           | inr urls => unique urls
           | inl _ => []
           end), st)) /\
  (flat_map pdf_hrefs cols = [] ->
   forall found st',
     _check_orders_page env self st = (inr found, st') ->
     _extract_pdfs_enhanced env self soup cols st =
       (inr (match found with
             | [] => match resolve_all env self (pdf_hrefs soup) with
                     | inr urls => unique urls
                     | inl _ => []
                     end
             | _ => unique found
             end), st')) /\
  NoDup (match fst (_extract_pdfs_enhanced env self soup cols st) with
         | inr urls => urls
         | inl _ => []
         end).
Proof.
  split; [apply extract_pdfs_from_row|]. split.
  - intros Hnil found st' Horders.
    rewrite extract_pdfs_value, Hnil. cbn [resolve_all]. rewrite Horders.
    destruct found as [|u us]; [|reflexivity].
    now destruct (resolve_all env self (pdf_hrefs soup)).
  - destruct (extract_pdfs_returns env self soup cols st) as (raw & st' & ->). simpl.
    rewrite unique_first_seen. apply first_seen_NoDup.
Qed.

Section OrdersPageFacts.

Variable env : Env.
Variable self : Config.

(** what [_check_orders_page] puts into its list: an address that begins
    with http as the browser gave it, or one joined to the base *)
Let resolved (url : string) : Prop :=
  startswith url "http" = true \/ exists href, urljoin env (base_url self) href = inr url.

Lemma collect_hrefs_resolved (elements : list (E env)) :
  forall pdf_urls st,
    Forall resolved pdf_urls ->
    exists c st',
      collect_hrefs env self elements pdf_urls st = (inr c, st') /\
      Forall resolved (fst c).
Proof.
  induction elements as [|element rest IH]; intros pdf_urls st Hres; cbn [collect_hrefs].
  - now eexists (_, _), st.
  - unfold bind at 1. unfold attempt_, query.
    destruct (get_attribute env element "href" (world st)) as [e|[href|]].
    + now eexists (_, _), st.
    + destruct (String.eqb href ""); [now apply IH|].
      destruct (startswith href "http") eqn:Hh.
      * apply IH. apply Forall_app. split; [exact Hres|].
        constructor; [now left | constructor].
      * destruct (urljoin env (base_url self) href) as [e|full_url] eqn:Hj;
          [now eexists (_, _), st|].
        apply IH. apply Forall_app. split; [exact Hres|].
        constructor; [right; now exists href | constructor].
    + now apply IH.
Qed.

Lemma orders_loop_resolved (selectors : list string) :
  forall pdf_urls st,
    Forall resolved pdf_urls ->
    exists urls st',
      orders_loop env self selectors pdf_urls st = (inr urls, st') /\
      Forall resolved urls.
Proof.
  induction selectors as [|selector rest IH]; intros pdf_urls st Hres; cbn [orders_loop].
  - now exists pdf_urls, st.
  - unfold bind at 1. unfold attempt_.
    match goal with |- context [bind ?m ?k st] =>
      destruct (bind m k st) as [[e|pdf_elements] s1] end.
    + now apply IH.
    + unfold bind at 1.
      destruct (collect_hrefs_resolved pdf_elements pdf_urls s1 Hres)
        as ([urls ok] & s2 & -> & Hres').
      simpl in *. destruct ok; [now exists urls, s2 | now apply IH].
Qed.

End OrdersPageFacts.

(** X12: [_check_orders_page] never raises, whatever the browser does;
    every address it returns either begins with http as the browser gave
    it or was joined to the base URL; it starts and quits no session; and
    without a live session it returns the empty list and sends nothing. *)
Theorem check_orders_page_returns_resolved_links
        (env : Env) (self : Config) (st : State env) :
  (exists urls st',
      _check_orders_page env self st = (inr urls, st') /\
      Forall (fun url => startswith url "http" = true \/
                         exists href, urljoin env (base_url self) href = inr url) urls /\
      appends quiet st st') /\
  (driver st = None -> _check_orders_page env self st = (inr [], st)).
Proof.
  split.
  - destruct (orders_loop_resolved env self orders_selectors [] st (Forall_nil _))
      as (urls & st' & Hrun & Hres).
    exists urls, st'. unfold _check_orders_page. split; [exact Hrun|]. split; [exact Hres|].
    pose proof (keeps_orders_loop env self orders_selectors [] st) as Hk.
    now rewrite Hrun in Hk.
  - apply orders_loop_no_session.
Qed.

(** * Properties of [utils.py] and of the stored dates *)

Section UtilsFacts.
Import Utils.

Lemma length_append (a b : string) :
  String.length (a ++ b) = String.length a + String.length b.
Proof. induction a as [|c a IH]; simpl; [reflexivity | now rewrite IH]. Qed.

Lemma length_take (n : nat) (s : string) :
  String.length (take n s) = Nat.min n (String.length s).
Proof.
  revert s; induction n as [|n IH]; intros s; [reflexivity|].
  destruct s as [|c s]; simpl; [reflexivity | now rewrite IH].
Qed.

(** the run of digits at the head of a text *)
Lemma span_digits_split (s : string) :
  s = (fst (Regex.span_digits s) ++ snd (Regex.span_digits s))%string /\
  all_digits (fst (Regex.span_digits s)) = true /\
  match snd (Regex.span_digits s) with
  | String c _ => is_digit c = false
  | EmptyString => True
  end.
Proof.
  induction s as [|c s IH]; [now repeat split|]. simpl.
  destruct (is_digit c) eqn:Hc.
  - destruct (Regex.span_digits s) as [d r]. simpl in *.
    destruct IH as (Hs & Hd & Hr). split; [now rewrite <- Hs|]. split; [|exact Hr].
    now rewrite Hc, Hd.
  - simpl. now repeat split.
Qed.

Lemma span_digits_append (d r : string) :
  all_digits d = true ->
  match r with String c _ => is_digit c = false | EmptyString => True end ->
  Regex.span_digits (d ++ r) = (d, r).
Proof.
  intros Hd Hr. induction d as [|c d IH]; simpl.
  - destruct r as [|c r]; [reflexivity|]. simpl. now rewrite Hr.
  - simpl in Hd. apply andb_true_iff in Hd as [Hc Hd]. now rewrite Hc, (IH Hd).
Qed.

Lemma separator_not_digit (c : ascii) : is_separator c = true -> is_digit c = false.
Proof.
  unfold is_separator. intros H. apply orb_true_iff in H as [H | H];
    apply Ascii.eqb_eq in H; now subst.
Qed.

Lemma digit_not_space (c : ascii) : is_digit c = true -> is_space c = false.
Proof.
  unfold is_digit, is_space. intros H. apply andb_true_iff in H as [H1 H2].
  apply Nat.leb_le in H1. apply Nat.leb_le in H2.
  apply orb_false_iff. split; apply andb_false_iff; right; apply Nat.leb_gt; lia.
Qed.

(** [strip] leaves no white space at the end *)
Lemma rstrip_empty (s : string) : rstrip s = "" -> all_space s = true.
Proof.
  destruct s as [|c s]; [reflexivity|]. simpl.
  destruct (is_space c && all_space s); [reflexivity | discriminate].
Qed.

Lemma rstrip_last (s a : string) (c : ascii) :
  rstrip s = (a ++ String c "")%string -> is_space c = false.
Proof.
  revert a; induction s as [|x s IH]; intros a Hs; simpl in Hs.
  - now destruct a.
  - destruct (is_space x && all_space s) eqn:Hall; [now destruct a|].
    destruct a as [|y a]; simpl in Hs.
    + injection Hs as -> Hr. apply rstrip_empty in Hr. rewrite Hr, andb_true_r in Hall.
      exact Hall.
    + injection Hs as _ Hr. now apply (IH a).
Qed.

Lemma strip_last (s a : string) (c : ascii) :
  strip s = (a ++ String c "")%string -> is_space c = false.
Proof. apply rstrip_last. Qed.

(** digits are not stripped *)
Lemma rstrip_digits (d : string) : all_digits d = true -> rstrip d = d.
Proof.
  induction d as [|c d IH]; [reflexivity|]. simpl. intros H.
  apply andb_true_iff in H as [Hc Hd]. rewrite (digit_not_space c Hc). simpl.
  now rewrite (IH Hd).
Qed.

Lemma strip_digits (d : string) : all_digits d = true -> strip d = d.
Proof.
  intros Hd. unfold strip.
  assert (Hl : lstrip d = d).
  { destruct d as [|c d]; [reflexivity|]. simpl in *.
    apply andb_true_iff in Hd as [Hc _]. now rewrite (digit_not_space c Hc). }
  rewrite Hl. now apply rstrip_digits.
Qed.

Lemma match_case_number_shape (t : string) :
  (forall a c, t = (a ++ String c "")%string -> is_space c = false) ->
  match_case_number t = true -> case_number_shape t.
Proof.
  intros Hend. unfold match_case_number.
  destruct (span_digits_split t) as (Ht & Hd1 & Hr).
  destruct (Regex.span_digits t) as [d1 r]. simpl in Ht, Hd1, Hr.
  intros Hm. apply andb_true_iff in Hm as [Hne Hm].
  assert (Hd1ne : d1 <> "").
  { intros ->. discriminate Hne. }
  set (r1 := match r with
             | String c r' => if is_separator c then r' else r
             | EmptyString => r
             end) in *.
  destruct (span_digits_split r1) as (Hr1 & Hd2 & _).
  destruct (Regex.span_digits r1) as [d2 r2]. simpl in Hr1, Hd2.
  assert (Hr2 : r2 = "").
  { apply orb_true_iff in Hm as [Hm | Hm]; apply String.eqb_eq in Hm; [exact Hm|].
    exfalso. subst r2.
    assert (Hnl : is_space newline = false).
    { destruct r as [|c r'].
      - subst r1. destruct d2; discriminate Hr1.
      - destruct (is_separator c) eqn:Hsep; subst r1.
        + apply (Hend (d1 ++ String c d2)%string newline).
          rewrite Ht, Hr1. now rewrite !append_assoc.
        + apply (Hend (d1 ++ d2)%string newline).
          rewrite Ht, Hr1. now rewrite !append_assoc. }
    discriminate Hnl. }
  subst r2. rewrite append_empty_r in Hr1.
  destruct r as [|c r'].
  - subst r1. exists d1, "". rewrite append_empty_r in Ht. repeat split; auto.
  - destruct (is_separator c) eqn:Hsep; subst r1.
    + exists d1, d2. repeat split; auto. subst r'.
      unfold is_separator in Hsep. apply orb_true_iff in Hsep as [Hc | Hc];
        apply Ascii.eqb_eq in Hc; subst c; rewrite Ht; auto.
    + exfalso. rewrite <- Hr1 in Hd2. simpl in Hd2. rewrite Hr in Hd2. discriminate.
Qed.

Lemma shape_match_case_number (t : string) :
  case_number_shape t -> match_case_number t = true.
Proof.
  intros (d1 & d2 & Hne & Hd1 & Hd2 & Ht). unfold match_case_number.
  assert (Hd2span : Regex.span_digits d2 = (d2, "")).
  { rewrite <- (append_empty_r d2) at 1. now apply span_digits_append. }
  destruct Ht as [-> | [-> | ->]].
  - rewrite <- (append_empty_r d1). rewrite span_digits_append by auto.
    destruct d1; [congruence|]. reflexivity.
  - rewrite (span_digits_append d1 ("/" ++ d2) Hd1 eq_refl). simpl. rewrite Hd2span.
    destruct d1; [congruence|]. reflexivity.
  - rewrite (span_digits_append d1 ("-" ++ d2) Hd1 eq_refl). simpl. rewrite Hd2span.
    destruct d1; [congruence|]. reflexivity.
Qed.

Lemma split_at_separators_digits (d : string) :
  all_digits d = true ->
  forall cur r, split_at_separators cur (d ++ r) = split_at_separators (cur ++ d) r.
Proof.
  induction d as [|c d IH]; intros Hd cur r; simpl.
  - now rewrite append_empty_r.
  - simpl in Hd. apply andb_true_iff in Hd as [Hc Hd].
    destruct (is_separator c) eqn:Hsep.
    + apply separator_not_digit in Hsep. congruence.
    + rewrite (IH Hd). now rewrite append_char.
Qed.

(** what an accepted case number looks like *)
Lemma validate_case_number_shape_aux (case_number : string) :
  validate_case_number case_number = true ->
  String.eqb case_number "" = false /\ case_number_shape (strip case_number).
Proof.
  unfold validate_case_number.
  destruct (String.eqb case_number ""); [discriminate|].
  destruct (match_case_number (strip case_number)) eqn:Hm; [|discriminate].
  intros _. split; [reflexivity|].
  apply match_case_number_shape; [|exact Hm]. intros a c. apply strip_last.
Qed.

End UtilsFacts.

(** X13: [validate_case_number] accepts a text of ASCII characters
    exactly when, with the white space around it stripped, it is a
    non-empty run of digits, alone or followed by one slash or hyphen and
    by digits that may be missing, and is at most 50 characters long. In
    particular "123/" is accepted, and a text with two separators or with a
    letter is not. *)
Theorem validate_case_number_accepts (case_number : string) :
  is_ascii case_number = true ->
  (Utils.validate_case_number case_number = true <->
   (Utils.case_number_shape (strip case_number) /\
    String.length (strip case_number) <= 50)).
Proof.
  intros _. unfold Utils.validate_case_number. split.
  - destruct (String.eqb case_number ""); [discriminate|].
    destruct (Utils.match_case_number (strip case_number)) eqn:Hm; [|discriminate].
    simpl. destruct (50 <? String.length (strip case_number)) eqn:H50;
      [rewrite orb_true_r; discriminate|].
    intros _. apply Nat.ltb_ge in H50. split; [|exact H50].
    apply match_case_number_shape; [|exact Hm]. intros a c. apply strip_last.
  - intros [Hshape Hlen].
    destruct (String.eqb_spec case_number "") as [->|_].
    + destruct Hshape as (d1 & d2 & Hne & _ & _ & Ht). exfalso.
      change (strip "") with "" in Ht.
      destruct d1; [congruence|]. destruct Ht as [Ht | [Ht | Ht]]; discriminate Ht.
    + rewrite (shape_match_case_number _ Hshape). simpl.
      assert (H1 : (String.length (strip case_number) <? 1) = false).
      { apply Nat.ltb_ge. destruct Hshape as (d1 & d2 & Hne & _ & _ & Ht).
        destruct d1; [congruence|].
        destruct Ht as [-> | [-> | ->]]; simpl; lia. }
      assert (H50 : (50 <? String.length (strip case_number)) = false)
        by now apply Nat.ltb_ge.
      now rewrite H1, H50.
Qed.

Lemma validate_case_number_accepts_witness :
  Utils.validate_case_number " 456-2022 " = true <->
  (Utils.case_number_shape (strip " 456-2022 ") /\
   String.length (strip " 456-2022 ") <= 50).
Proof. apply (validate_case_number_accepts " 456-2022 "). reflexivity. Defined.

(** X14: for every case number that [validate_case_number] accepts,
    [extract_case_number_parts] returns the digits before the separator as
    the number and the digits behind it as the year, the year being empty
    when there is no separator or nothing behind it; number, separator and
    year put together give the stripped input back. *)
Theorem parts_of_a_valid_case_number (case_number : string) :
  Utils.validate_case_number case_number = true ->
  exists number year,
    Utils.extract_case_number_parts case_number = (number, year) /\
    number <> "" /\ all_digits number = true /\ all_digits year = true /\
    (strip case_number = number \/
     strip case_number = (number ++ "/" ++ year)%string \/
     strip case_number = (number ++ "-" ++ year)%string).
Proof.
  intros Hvalid. pose proof Hvalid as Hv.
  apply validate_case_number_shape_aux in Hv.
  destruct Hv as (Hnonempty & d1 & d2 & Hne & Hd1 & Hd2 & Ht).
  unfold Utils.extract_case_number_parts. rewrite Hnonempty.
  assert (Hs2 : Utils.split_at_separators "" d2 = [d2]).
  { rewrite <- (append_empty_r d2) at 1.
    rewrite (split_at_separators_digits d2 Hd2). reflexivity. }
  destruct Ht as [Ht | [Ht | Ht]]; rewrite Ht.
  - exists d1, "". rewrite <- (append_empty_r d1) at 1.
    rewrite (split_at_separators_digits d1 Hd1). simpl.
    rewrite ?(strip_digits d1 Hd1). repeat split; auto.
  - exists d1, d2. rewrite (split_at_separators_digits d1 Hd1). simpl.
    rewrite Hs2, (strip_digits d1 Hd1), (strip_digits d2 Hd2).
    repeat split; auto.
  - exists d1, d2. rewrite (split_at_separators_digits d1 Hd1). simpl.
    rewrite Hs2, (strip_digits d1 Hd1), (strip_digits d2 Hd2).
    repeat split; auto.
Qed.

Lemma parts_of_a_valid_case_number_witness :
  exists number year,
    Utils.extract_case_number_parts " 456-2022 " = (number, year) /\
    number <> "" /\ all_digits number = true /\ all_digits year = true /\
    (strip " 456-2022 " = number \/
     strip " 456-2022 " = (number ++ "/" ++ year)%string \/
     strip " 456-2022 " = (number ++ "-" ++ year)%string).
Proof. apply (parts_of_a_valid_case_number " 456-2022 "). reflexivity. Defined.

Section FilenameFacts.
Import Utils.

Variable p : ascii -> bool.

Lemma all_chars_append (a b : string) :
  all_chars p (a ++ b) = all_chars p a && all_chars p b.
Proof. induction a as [|c a IH]; simpl; [reflexivity | now rewrite IH, andb_assoc]. Qed.

Lemma all_chars_squeeze (s : string) :
  all_chars p s = true -> all_chars p (squeeze_underscores s) = true.
Proof.
  induction s as [|c s IH]; [reflexivity|]. intros H.
  simpl in H. apply andb_true_iff in H as [Hc Hs].
  cbn [squeeze_underscores].
  destruct (Ascii.eqb c underscore &&
            match s with String c' _ => Ascii.eqb c' underscore | EmptyString => false end);
    [now apply IH|]. simpl. now rewrite Hc, IH.
Qed.

Lemma all_chars_lstrip (q : ascii -> bool) (s : string) :
  all_chars p s = true -> all_chars p (lstrip_chars q s) = true.
Proof.
  induction s as [|c s IH]; [reflexivity|]. intros H. simpl.
  destruct (q c); [|exact H]. simpl in H. apply andb_true_iff in H as [_ Hs]. now apply IH.
Qed.

Lemma all_chars_rstrip (q : ascii -> bool) (s : string) :
  all_chars p s = true -> all_chars p (rstrip_chars q s) = true.
Proof.
  induction s as [|c s IH]; [reflexivity|]. intros H.
  simpl in H. apply andb_true_iff in H as [Hc Hs]. cbn [rstrip_chars].
  destruct (all_chars q (String c s)); [reflexivity|]. simpl. now rewrite Hc, IH.
Qed.

Lemma all_chars_take (n : nat) (s : string) :
  all_chars p s = true -> all_chars p (take n s) = true.
Proof.
  revert s; induction n as [|n IH]; intros s H; [reflexivity|].
  destruct s as [|c s]; [reflexivity|]. simpl in *.
  apply andb_true_iff in H as [Hc Hs]. now rewrite Hc, IH.
Qed.

End FilenameFacts.

(** X15: whatever name it is given, [sanitize_filename] returns a name
    that is not empty and at most 100 characters long; and when the time
    stamp of the fall-back name is free of them, as the digits and the
    underscore of its format are, the result holds none of the nine
    characters that are replaced, so neither a slash nor a backslash. *)
Theorem sanitize_filename_is_safe (stamp filename : string) :
  Utils.sanitize_filename stamp filename <> "" /\
  String.length (Utils.sanitize_filename stamp filename) <= 100 /\
  (Utils.all_chars (fun c => negb (Utils.is_problematic c)) stamp = true ->
   Utils.all_chars (fun c => negb (Utils.is_problematic c))
                   (Utils.sanitize_filename stamp filename) = true).
Proof.
  unfold Utils.sanitize_filename.
  destruct (String.eqb filename "");
    [split; [discriminate | split; [simpl; lia | reflexivity]]|].
  set (ok := fun c => negb (Utils.is_problematic c)) in *.
  set (replaced := map_str (fun c => if Utils.is_problematic c then Utils.underscore else c)
                           filename).
  assert (Hreplaced : Utils.all_chars ok replaced = true).
  { subst replaced. induction filename as [|c s IH]; [reflexivity|]. simpl.
    rewrite IH, andb_true_r. unfold ok.
    destruct (Utils.is_problematic c) eqn:Hc; [reflexivity | now rewrite Hc]. }
  set (cleaned := Utils.strip_underscores_blanks (Utils.squeeze_underscores replaced)).
  assert (Hcleaned : Utils.all_chars ok cleaned = true).
  { subst cleaned. unfold Utils.strip_underscores_blanks.
    now apply all_chars_rstrip, all_chars_lstrip, all_chars_squeeze. }
  set (name := if String.eqb cleaned "" then ("file_" ++ stamp)%string else cleaned).
  assert (Hname : name <> "" /\
                  (Utils.all_chars ok stamp = true -> Utils.all_chars ok name = true)).
  { subst name. destruct (String.eqb_spec cleaned "") as [_|Hne].
    - split; [discriminate|]. intros Hstamp. now rewrite all_chars_append, Hstamp.
    - now split. }
  destruct Hname as [Hne Hok].
  destruct (100 <? String.length name) eqn:Hlong.
  - apply Nat.ltb_lt in Hlong. split; [|split].
    + destruct name; [simpl in Hlong; lia | discriminate].
    + rewrite length_take. lia.
    + intros Hstamp. now apply all_chars_take, Hok.
  - apply Nat.ltb_ge in Hlong. split; [exact Hne|]. split; [exact Hlong | exact Hok].
Qed.

(** X16: for a maximum of three or more, [truncate_text] returns a text of
    at most that length: the text itself when it fits, and otherwise its
    first [max_length - 3] characters followed by three dots, which is
    exactly [max_length] long. For a maximum below three and a longer text
    the result is longer than the maximum. *)
Theorem truncate_text_length (text : string) (max_length : Z) :
  ((3 <= max_length)%Z ->
   (Z.of_nat (String.length (Utils.truncate_text text max_length)) <= max_length)%Z /\
   ((Z.of_nat (String.length text) <= max_length)%Z ->
    Utils.truncate_text text max_length = text) /\
   ((max_length < Z.of_nat (String.length text))%Z ->
    Utils.truncate_text text max_length =
      (take (Z.to_nat (max_length - 3)) text ++ "...")%string /\
    Z.of_nat (String.length (Utils.truncate_text text max_length)) = max_length)) /\
  ((max_length < 3)%Z ->
   (max_length < Z.of_nat (String.length text))%Z ->
   (max_length < Z.of_nat (String.length (Utils.truncate_text text max_length)))%Z).
Proof.
  unfold Utils.truncate_text, Utils.slice_to. split.
  - intros H3. destruct (String.eqb_spec text "") as [->|Hne].
    + simpl. split; [lia|]. split; [reflexivity|]. intros Hlt. lia.
    + destruct (Z.of_nat (String.length text) <=? max_length)%Z eqn:Hfit.
      * apply Z.leb_le in Hfit. split; [lia|]. split; [reflexivity|]. intros Hlt. lia.
      * apply Z.leb_gt in Hfit.
        assert (Hneg : (max_length - 3 <? 0)%Z = false) by lia. rewrite Hneg.
        assert (Hlen : Z.of_nat (String.length
                                   (take (Z.to_nat (max_length - 3)) text ++ "...")) =
                       max_length).
        { rewrite length_append, length_take. simpl. lia. }
        split; [lia|]. split; [intros Hle; lia|]. intros _. now split.
  - intros H3 Hlong. destruct (String.eqb_spec text "") as [->|Hne].
    + simpl in *. lia.
    + assert (Hfit : (Z.of_nat (String.length text) <=? max_length)%Z = false) by lia.
      rewrite Hfit, length_append. simpl. lia.
Qed.

Section StoredDates.

Variable Date : Type.
Variable strptime : string -> string -> option Date.

Lemma iso_date_shape (d : string) :
  Regex.is_date_text d ->
  String.length (iso_date d) = 10 /\ contains "-" (iso_date d) = true /\
  String.eqb (iso_date d) "" = false.
Proof.
  intros Hd. destruct (date_at_inv d d Hd)
    as (d1 & d2 & m1 & m2 & y1 & y2 & y3 & y4 & -> & _).
  unfold iso_date. simpl substring. split; [reflexivity|]. split; [|reflexivity].
  change (String y1 (String y2 (String y3 (String y4 "")))
          ++ "-" ++ String m1 (String m2 "") ++ "-" ++ String d1 (String d2 ""))%string
    with (String y1 (String y2 (String y3 (String y4 "")))
          ++ ("-" ++ String m1 (String m2 (String "-" (String d1 (String d2 ""))))))%string.
  apply contains_app_r. simpl. destruct (ascii_dec "-" "-"); [reflexivity | congruence].
Qed.

Lemma parse_date_of_iso (d : string) :
  Regex.is_date_text d ->
  App._parse_date Date strptime (Some (iso_date d)) = strptime (iso_date d) "%Y-%m-%d".
Proof.
  intros Hd. destruct (iso_date_shape d Hd) as (Hlen & Hdash & Hne).
  unfold App._parse_date. now rewrite Hne, Hdash, Hlen.
Qed.

End StoredDates.

(** X17: every date the parser reports is stored through the ISO branch
    of [_parse_date]: for both fields of every listing text, [_parse_date]
    returns what [strptime] makes of the text with the format
    ['%Y-%m-%d'], and None for a field that is unset; and a text that is
    not ten characters long is never handed to [strptime]. *)
Theorem parser_dates_reach_strptime_as_iso
        (Date : Type) (strptime : string -> string -> option Date) :
  (forall listing : string,
      App._parse_date Date strptime (fst (extract_dates listing)) =
        match fst (extract_dates listing) with
        | Some d => strptime d "%Y-%m-%d"
        | None => None
        end /\
      App._parse_date Date strptime (snd (extract_dates listing)) =
        match snd (extract_dates listing) with
        | Some d => strptime d "%Y-%m-%d"
        | None => None
        end) /\
  (forall s : string,
      String.length s <> 10 -> App._parse_date Date strptime (Some s) = None).
Proof.
  split.
  - intros listing. rewrite extract_dates_by_position. simpl.
    pose proof (findall_dates_go_sound listing 0) as Hsound.
    fold (Regex.findall_dates listing) in Hsound.
    destruct (Regex.findall_dates listing) as [|d0 [|d1 more]]; simpl.
    + now split.
    + inversion Hsound as [|? ? [Hd0 _] _]; subst.
      split; [now apply parse_date_of_iso | reflexivity].
    + inversion Hsound as [|? ? [Hd0 _] Hmore]; subst.
      inversion Hmore as [|? ? [Hd1 _] _]; subst.
      split; now apply parse_date_of_iso.
  - intros s Hlen. unfold App._parse_date.
    destruct (String.eqb s ""); [reflexivity|].
    apply Nat.eqb_neq in Hlen. now rewrite Hlen, !andb_false_r.
Qed.
